(** * SMA crossover demo and its offline chart report

    A shallow embedding of the two programs of the repository:

    - [Algorithm.Python/SimpleSmaCrossDemoAlgorithm.py]: the crossover
      detector ([on_data]) and the fill recorder ([on_order_event]);
    - [tools/visualize_lean_charts.py]: the series extractor
      ([_extract_xy]), the trade table ([_build_trades_table]) and the
      command line entry point ([main]).

    The object an algorithm method mutates is threaded explicitly: a method
    takes [self] and returns the new [self] with the list of engine calls it
    made, in order.  A function that can raise returns an [option]: [None]
    is the raised exception. *)

From Stdlib Require Import String Ascii.
From Stdlib Require Import ZArith QArith Qround Qabs Bool Lia.
From Stdlib Require Import OrderedTypeEx.
From Stdlib Require Import List Sorted Permutation.
Import ListNotations.

Local Open Scope string_scope.
Local Open Scope list_scope.
Set Warnings "-register-all".

(** ** Numbers of the live path

    Indicator values, prices and quantities reach Python as finite numbers
    (the engine holds them as decimals), so they are rationals here and
    Python's [>] and [<] are the exact comparisons. *)

Definition Qgtb (a b : Q) : bool :=
  match Qcompare a b with Gt => true | _ => false end.

Definition Qltb (a b : Q) : bool :=
  match Qcompare a b with Lt => true | _ => false end.

(** ** SimpleSmaCrossDemoAlgorithm.py *)

Module SimpleSmaCrossDemoAlgorithm.

(** An indicator as [on_data] reads it: [is_ready] and [current.value]. *)
Record Indicator := {
  is_ready : bool;
  current_value : Q
}.

Record TradeBar := { close : Q }.

(** A [Slice]: the symbols it has a key for, each with its bar or [None]. *)
Definition Slice := list (string * option TradeBar).

Fixpoint contains_key (data : Slice) (symbol : string) : bool :=
  match data with
  | [] => false
  | (k, _) :: rest => if String.eqb k symbol then true else contains_key rest symbol
  end.

(** [data[symbol]]; only evaluated where [contains_key] holds. *)
Fixpoint getitem (data : Slice) (symbol : string) : option TradeBar :=
  match data with
  | [] => None
  | (k, v) :: rest => if String.eqb k symbol then v else getitem rest symbol
  end.

(** The algorithm object: the fields [initialize] sets and the engine's
    [is_warming_up].  The engine updates [is_warming_up], [_fast] and
    [_slow] between calls; [on_data] writes [_was_fast_above] only. *)
Record QCAlgorithm := {
  is_warming_up : bool;
  _ticker : string;
  _symbol : string;
  _fast_period : Z;
  _slow_period : Z;
  _fast : Indicator;
  _slow : Indicator;
  _was_fast_above : option bool
}.

Definition set_was_fast_above (self : QCAlgorithm) (v : option bool) : QCAlgorithm :=
  {| is_warming_up := is_warming_up self;
     _ticker := _ticker self;
     _symbol := _symbol self;
     _fast_period := _fast_period self;
     _slow_period := _slow_period self;
     _fast := _fast self;
     _slow := _slow self;
     _was_fast_above := v |}.

(** The engine calls a method makes. *)
Inductive Call :=
| plot (chart series : string) (value : Q)
| set_holdings (symbol : string) (percentage : Q)
| liquidate (symbol : string).

(** [initialize]: the fields as the method leaves them.  The two averages
    are fresh (no sample yet) and the warm-up it asks for has begun; the
    dates, the cash and the chart set-up are engine calls with no bearing on
    the two handlers below. *)
Definition initialize : QCAlgorithm :=
  {| is_warming_up := true;
     _ticker := "SPY";
     _symbol := "SPY";
     _fast_period := 20;
     _slow_period := 50;
     _fast := {| is_ready := false; current_value := 0 |};
     _slow := {| is_ready := false; current_value := 0 |};
     _was_fast_above := None |}.

Definition on_data (self : QCAlgorithm) (data : Slice) : QCAlgorithm * list Call :=
  if is_warming_up self then (self, [])
  else if negb (is_ready (_fast self) && is_ready (_slow self)) then (self, [])
  else if negb (contains_key data (_symbol self)) then (self, [])
  else
    match getitem data (_symbol self) with
    | None => (self, [])
    | Some bar =>
        let plots :=
          [ plot (_ticker self) "Price" (close bar);
            plot (_ticker self) "FastSMA" (current_value (_fast self));
            plot (_ticker self) "SlowSMA" (current_value (_slow self)) ] in
        let is_fast_above :=
          Qgtb (current_value (_fast self)) (current_value (_slow self)) in
        match _was_fast_above self with
        | None =>
            (* Initialize state without trading on the first ready sample *)
            (set_was_fast_above self (Some is_fast_above), plots)
        | Some was =>
            let orders :=
              if is_fast_above && negb was then
                [ set_holdings (_symbol self) 1 ]       (* Cross up -> enter *)
              else if negb is_fast_above && was then
                [ liquidate (_symbol self) ]            (* Cross down -> exit *)
              else [] in
            (set_was_fast_above self (Some is_fast_above), plots ++ orders)
        end
    end.

(** The three plots [on_data] makes of a bar, and its [is_fast_above]. *)
Definition plots_of (self : QCAlgorithm) (bar : TradeBar) : list Call :=
  [ plot (_ticker self) "Price" (close bar);
    plot (_ticker self) "FastSMA" (current_value (_fast self));
    plot (_ticker self) "SlowSMA" (current_value (_slow self)) ].

Definition is_fast_above_of (self : QCAlgorithm) : bool :=
  Qgtb (current_value (_fast self)) (current_value (_slow self)).

(** The guards of [on_data] all pass: the call gets as far as comparing the
    two averages. *)
Definition reaches_comparison (self : QCAlgorithm) (data : Slice) : bool :=
  negb (is_warming_up self)
  && (is_ready (_fast self) && is_ready (_slow self))
  && contains_key data (_symbol self)
  && match getitem data (_symbol self) with Some _ => true | None => false end.

(** Order events. *)
Inductive OrderStatus :=
| NEW | SUBMITTED | PARTIALLY_FILLED | FILLED | CANCELED
| NONE | INVALID | CANCEL_PENDING | UPDATE_SUBMITTED.

Definition is_filled (s : OrderStatus) : bool :=
  match s with FILLED => true | _ => false end.

Record OrderEvent := {
  status : OrderStatus;
  fill_quantity : Q;
  fill_price : Q;
  utc_time : Z
}.

Definition on_order_event (self : QCAlgorithm) (order_event : OrderEvent)
  : QCAlgorithm * list Call :=
  if negb (is_filled (status order_event)) then (self, [])
  else if Qgtb (fill_quantity order_event) 0 then
    (self, [ plot (_ticker self) "Buy" (fill_price order_event) ])
  else if Qltb (fill_quantity order_event) 0 then
    (self, [ plot (_ticker self) "Sell" (fill_price order_event) ])
  else (self, []).

(** *** The detector's view of a call

    The signal of a call is read off the orders it placed: [set_holdings]
    is Enter, [liquidate] is Exit, no order is no signal. *)
Inductive SignalEvent := Enter | Exit | NoSignal.

Definition is_set_holdings (c : Call) : bool :=
  match c with set_holdings _ _ => true | _ => false end.

Definition is_liquidate (c : Call) : bool :=
  match c with liquidate _ => true | _ => false end.

Definition signal_of (calls : list Call) : SignalEvent :=
  if existsb is_set_holdings calls then Enter
  else if existsb is_liquidate calls then Exit
  else NoSignal.

Definition SignalEvent_eqb (a b : SignalEvent) : bool :=
  match a, b with
  | Enter, Enter | Exit, Exit | NoSignal, NoSignal => true
  | _, _ => false
  end.

Definition count_signal (e : SignalEvent) (evs : list SignalEvent) : nat :=
  length (filter (SignalEvent_eqb e) evs).

(** The trade markers a fill adds to the chart. *)
Inductive Side := BUY | SELL.

Definition marker_of (c : Call) : option (Side * Q) :=
  match c with
  | plot _ series v =>
      if String.eqb series "Buy" then Some (BUY, v)
      else if String.eqb series "Sell" then Some (SELL, v)
      else None
  | _ => None
  end.

Fixpoint markers (calls : list Call) : list (Side * Q) :=
  match calls with
  | [] => []
  | c :: rest =>
      match marker_of c with
      | Some m => m :: markers rest
      | None => markers rest
      end
  end.

(** One time step: what the engine has set on the object when it calls
    [on_data], and the slice it passes. *)
Record Step := {
  step_warming_up : bool;
  step_fast : Indicator;
  step_slow : Indicator;
  step_data : Slice
}.

Definition engine_update (self : QCAlgorithm) (s : Step) : QCAlgorithm :=
  {| is_warming_up := step_warming_up s;
     _ticker := _ticker self;
     _symbol := _symbol self;
     _fast_period := _fast_period self;
     _slow_period := _slow_period self;
     _fast := step_fast s;
     _slow := step_slow s;
     _was_fast_above := _was_fast_above self |}.

Definition deliver (self : QCAlgorithm) (s : Step) : QCAlgorithm * SignalEvent :=
  let (self', calls) := on_data (engine_update self s) (step_data s) in
  (self', signal_of calls).

Fixpoint run (self : QCAlgorithm) (steps : list Step) : QCAlgorithm * list SignalEvent :=
  match steps with
  | [] => (self, [])
  | s :: rest =>
      let (self1, e) := deliver self s in
      let (self2, es) := run self1 rest in
      (self2, e :: es)
  end.

(** Both averages are ready at step [s]. *)
Definition both_ready (s : Step) : bool :=
  is_ready (step_fast s) && is_ready (step_slow s).

(** Step [s] gets as far as the comparison of the two averages: the warm-up
    is over, both averages are ready and the slice has a bar for the symbol. *)
Definition compares (self : QCAlgorithm) (s : Step) : bool :=
  reaches_comparison (engine_update self s) (step_data s).

Definition step_is_fast_above (s : Step) : bool :=
  Qgtb (current_value (step_fast s)) (current_value (step_slow s)).

(** The signal a change of the stored flag from [was] to [now] stands for. *)
Definition crossing (was now : bool) : SignalEvent :=
  if now && negb was then Enter
  else if negb now && was then Exit
  else NoSignal.

Fixpoint crossings (was : bool) (bs : list bool) : list SignalEvent :=
  match bs with
  | [] => []
  | b :: rest => crossing was b :: crossings b rest
  end.

(** The [is_fast_above] values the detector has seen since it was
    initialized, when it starts with the stored flag [start] and then
    compares [bs]; and the signals of those steps (the step that
    initializes gives none). *)
Definition seen (start : option bool) (bs : list bool) : list bool :=
  match start with
  | Some was => was :: bs
  | None => bs
  end.

Definition signals_from (start : option bool) (bs : list bool) : list SignalEvent :=
  match start, bs with
  | Some was, _ => crossings was bs
  | None, [] => []
  | None, b :: rest => NoSignal :: crossings b rest
  end.

(** Number of adjacent pairs [from, to] in a sequence of booleans. *)
Fixpoint transitions (from to : bool) (bs : list bool) : nat :=
  match bs with
  | a :: (b :: _) as rest =>
      (if Bool.eqb a from && Bool.eqb b to then 1 else 0) + transitions from to rest
  | _ => 0
  end.

(** *** The detector as a machine on the stored flag

    What a step shows the detector: the [is_fast_above] it computes, or
    nothing when a guard sends the call back. *)
Definition observe (self : QCAlgorithm) (s : Step) : option bool :=
  if compares self s then Some (step_is_fast_above s) else None.

Definition is_seen (o : option bool) : bool :=
  match o with Some _ => true | None => false end.

(** The stored flag and the signal after one observation. *)
Definition detect (flag : option bool) (obs : option bool) : option bool * SignalEvent :=
  match obs, flag with
  | None, _ => (flag, NoSignal)
  | Some now, None => (Some now, NoSignal)
  | Some now, Some was => (Some now, crossing was now)
  end.

Fixpoint detector (flag : option bool) (obs : list (option bool))
  : option bool * list SignalEvent :=
  match obs with
  | [] => (flag, [])
  | o :: rest =>
      let (flag1, e) := detect flag o in
      let (flag2, es) := detector flag1 rest in
      (flag2, e :: es)
  end.

(** The signals that place an order. *)
Definition is_trade (e : SignalEvent) : bool := negb (SignalEvent_eqb e NoSignal).

Definition trades_only (evs : list SignalEvent) : list SignalEvent := filter is_trade evs.

(** [evs] is an alternation of Enter and Exit that starts with the one that
    leaves the position [invested]. *)
Fixpoint alternates_from (invested : bool) (evs : list SignalEvent) : Prop :=
  match evs with
  | [] => True
  | e :: rest =>
      e = (if invested then Exit else Enter) /\ alternates_from (negb invested) rest
  end.

Definition is_plot (c : Call) : bool :=
  match c with plot _ _ _ => true | _ => false end.

Definition is_order (c : Call) : bool := is_set_holdings c || is_liquidate c.

End SimpleSmaCrossDemoAlgorithm.

(** ** tools/visualize_lean_charts.py *)

Module visualize_lean_charts.

(** What the tool uses of Python and its library, and does not define:
    the [float] type with [int()], [float()], [/] and [bool()] on it,
    the UTC calendar of [datetime], and the [.4f] format.  A [None] result
    is a raised exception. *)
Class PyRuntime := {
  float : Type;
  (** [bool(f)]: false for a zero *)
  float_truthy : float -> bool;
  (** [int(f)]; raises on an infinity or a nan *)
  int_of_float : float -> option Z;
  (** [int(s)] of a [str]; raises [ValueError] on a string that is no integer literal *)
  int_of_str : string -> option Z;
  (** [float(n)] of an [int]; raises [OverflowError] on one too large *)
  float_of_int : Z -> option float;
  (** [float(s)] of a [str]; raises [ValueError] on a string that is no number *)
  float_of_str : string -> option float;
  (** [n / d] of two [int]s; raises on a zero divisor or a quotient too large *)
  truediv : Z -> Z -> option float;
  datetime : Type;
  (** [datetime.fromtimestamp(t, tz=timezone.utc)]; raises out of the
      calendar's range *)
  fromtimestamp_utc : float -> option datetime;
  (** [d.strftime(fmt)] *)
  strftime : datetime -> string -> string;
  (** [format(v, ".4f")] *)
  format_4f : float -> string
}.

Section Tool.

Context {rt : PyRuntime}.

(** A value [json.load] returns.  [JDict] holds the items of a [dict] in
    insertion order, its keys pairwise distinct. *)
Inductive json :=
| JNull
| JBool (b : bool)
| JInt (n : Z)
| JFloat (f : float)
| JStr (s : string)
| JList (items : list json)
| JDict (items : list (string * json)).

(** [bool(v)], as [or] tests it. *)
Definition truthy (v : json) : bool :=
  match v with
  | JNull => false
  | JBool b => b
  | JInt n => negb (Z.eqb n 0)
  | JFloat f => float_truthy f
  | JStr s => negb (String.eqb s "")
  | JList items => match items with [] => false | _ => true end
  | JDict items => match items with [] => false | _ => true end
  end.

(** [a or b] *)
Definition py_or (a b : json) : json := if truthy a then a else b.

Fixpoint lookup (items : list (string * json)) (key : string) : option json :=
  match items with
  | [] => None
  | (k, v) :: rest => if String.eqb k key then Some v else lookup rest key
  end.

(** [key in d] and [d[key]], [d] a dict. *)
Definition contains (items : list (string * json)) (key : string) : bool :=
  match lookup items key with Some _ => true | None => false end.

(** [d.get(key)]: [None] of Python where the key is missing.  Only a dict
    has the method: on another value the call raises [AttributeError]. *)
Definition get (d : json) (key : string) : option json :=
  match d with
  | JDict items =>
      Some (match lookup items key with Some v => v | None => JNull end)
  | _ => None
  end.

Fixpoint chars (s : string) : list json :=
  match s with
  | EmptyString => []
  | String c rest => JStr (String c EmptyString) :: chars rest
  end.

(** The items a [for] loop over [v] visits; a value that is no iterable
    raises [TypeError]. *)
Definition iter (v : json) : option (list json) :=
  match v with
  | JList items => Some items
  | JStr s => Some (chars s)
  | JDict items => Some (map (fun kv => JStr (fst kv)) items)
  | _ => None
  end.

(** [int(v)] *)
Definition python_int (v : json) : option Z :=
  match v with
  | JBool b => Some (if b then 1 else 0)%Z
  | JInt n => Some n
  | JFloat f => int_of_float f
  | JStr s => int_of_str s
  | JNull | JList _ | JDict _ => None
  end.

(** [float(v)] *)
Definition python_float (v : json) : option float :=
  match v with
  | JBool b => float_of_int (if b then 1 else 0)%Z
  | JInt n => float_of_int n
  | JFloat f => Some f
  | JStr s => float_of_str s
  | JNull | JList _ | JDict _ => None
  end.

(** The [if]/[elif]/[else] at the head of the loop body of [_extract_xy]:
    the pair [x_s, y] of a point, or [None] where the body [continue]s. *)
Definition unpack (item : json) : option (json * json) :=
  match item with
  | JList [x_s; y] => Some (x_s, y)
  | JDict kvs =>
      if contains kvs "x" && contains kvs "y" then
        match lookup kvs "x", lookup kvs "y" with
        | Some x_s, Some y => Some (x_s, y)
        | _, _ => None
        end
      else None
  | _ => None
  end.

(** One turn of the loop of [_extract_xy] on the two lists it appends to.
    The [try] block appends the timestamp, then the value: an exception of
    [float(y)] leaves the first append in place. *)
Definition extract_item (acc : list Z * list float) (item : json)
  : list Z * list float :=
  let (xs_ms, ys) := acc in
  match unpack item with
  | None => (xs_ms, ys)
  | Some (x_s, y) =>
      match python_int x_s with
      | None => (xs_ms, ys)
      | Some n =>
          let xs_ms := xs_ms ++ [(n * 1000)%Z] in
          match python_float y with
          | None => (xs_ms, ys)
          | Some v => (xs_ms, ys ++ [v])
          end
      end
  end.

Definition _extract_xy (series : json) : option (list Z * list float) :=
  match get series "values" with
  | None => None
  | Some v =>
      let values := py_or v (JList []) in
      match iter values with
      | None => None
      | Some items => Some (fold_left extract_item items ([], []))
      end
  end.

(** The two shapes of a point the loop accepts, and a series object that
    holds the given points. *)
Definition pair_form (p : json * json) : json := JList [fst p; snd p].

Definition object_form (p : json * json) : json :=
  JDict [("x", fst p); ("y", snd p)].

Definition series_of (points : list json) : json :=
  JDict [("values", JList points)].

Definition _ms_to_utc_iso (ms : Z) : option string :=
  match truediv ms 1000 with
  | None => None
  | Some t =>
      match fromtimestamp_utc t with
      | None => None
      | Some d => Some (strftime d "%Y-%m-%d %H:%M:%S")
      end
  end.

(** A row of the trade table: [(time_utc, side, price)]. *)
Definition Trade : Type := string * string * float.

Definition time_utc (t : Trade) : string := fst (fst t).
Definition side (t : Trade) : string := snd (fst t).
Definition price (t : Trade) : float := snd t.

(** [for x, y in zip(xs, ys): trades.append((_ms_to_utc_iso(x), side, y))];
    the first timestamp the calendar refuses raises out of the loop. *)
Fixpoint classify (side : string) (points : list (Z * float)) : option (list Trade) :=
  match points with
  | [] => Some []
  | (x, y) :: rest =>
      match _ms_to_utc_iso x with
      | None => None
      | Some iso =>
          match classify side rest with
          | None => None
          | Some trades => Some ((iso, side, y) :: trades)
          end
      end
  end.

(** What [classify] makes of one point. *)
Definition made_from (sd : string) (p : Z * float) (t : Trade) : Prop :=
  _ms_to_utc_iso (fst p) = Some (time_utc t) /\ side t = sd /\ price t = snd p.

(** [list.sort(key=...)] and [sorted]: the stable sort on [str] keys,
    written as an insertion sort (a list has one stable sorted arrangement,
    [stable_sorted_unique] below, so the algorithm does not matter).
    Python compares strings by code point, which on UTF-8 text is the
    order of the bytes. *)
Section Sort.
Context {A : Type} (key : A -> string).

Fixpoint insert (x : A) (l : list A) : list A :=
  match l with
  | [] => [x]
  | y :: rest =>
      if String.leb (key x) (key y) then x :: l else y :: insert x rest
  end.

Fixpoint sort (l : list A) : list A :=
  match l with
  | [] => []
  | x :: rest => insert x (sort rest)
  end.

(** Ascending by key, and the records of one key. *)
Definition key_le (a b : A) : Prop := String.leb (key a) (key b) = true.

Definition has_key (k : string) (a : A) : bool := String.eqb (key a) k.
End Sort.

Definition dq : string := String (ascii_of_nat 34) EmptyString.
Definition nl : string := String (ascii_of_nat 10) EmptyString.

Fixpoint join (sep : string) (parts : list string) : string :=
  match parts with
  | [] => ""
  | [p] => p
  | p :: rest => p ++ sep ++ join sep rest
  end.

Definition row_html (t : Trade) : string :=
  "<tr>"
  ++ "<td style=" ++ dq ++ "padding: 6px; border-bottom: 1px solid #eee;" ++ dq ++ ">"
  ++ time_utc t ++ "</td>"
  ++ "<td style=" ++ dq ++ "padding: 6px; border-bottom: 1px solid #eee;" ++ dq ++ ">"
  ++ side t ++ "</td>"
  ++ "<td style=" ++ dq
  ++ "padding: 6px; border-bottom: 1px solid #eee; text-align: right;" ++ dq ++ ">"
  ++ format_4f (price t) ++ "</td>"
  ++ "</tr>".

Definition no_trades_html : string :=
  "<tr><td colspan=" ++ dq ++ "3" ++ dq ++ " style=" ++ dq ++ "padding: 6px;" ++ dq
  ++ ">No trades</td></tr>".

Definition _build_trades_table (buy_x : list Z) (buy_y : list float)
    (sell_x : list Z) (sell_y : list float) : option (string * list Trade) :=
  match classify "BUY" (combine buy_x buy_y) with
  | None => None
  | Some buys =>
      match classify "SELL" (combine sell_x sell_y) with
      | None => None
      | Some sells =>
          let trades := sort time_utc (buys ++ sells) in
          let rows := map row_html trades in
          Some (match rows with [] => no_trades_html | _ => join nl rows end, trades)
      end
  end.

(** *** The command line

    [args] after [parse_args], and the files [main] touches. *)
Record Namespace := {
  input : string;
  chart : string;
  output : option string
}.

Record FileSystem := {
  (** [str(Path(p).expanduser().resolve())] *)
  resolve : string -> string;
  (** [Path.exists] *)
  exists_ : string -> bool;
  (** [open] and [json.load]; [None] where either raises *)
  json_load : string -> option json;
  (** [input_path.with_suffix("").with_name(input_path.stem + "-viz.html")] *)
  viz_path : string -> string;
  (** whether [write_text] to the path succeeds *)
  writable : string -> bool
}.

(** The keyword arguments [main] passes to [_build_html]: the template
    copies each of them into the page and reads nothing else. *)
Record Page := {
  title : string;
  price_x : list Z;  price_y : list float;
  buy_x : list Z;    buy_y : list float;
  sell_x : list Z;   sell_y : list float;
  fast_x : list Z;   fast_y : list float;
  slow_x : list Z;   slow_y : list float;
  trades_rows_html : string
}.

(** How the process ends: [raise SystemExit(message)] (the message goes
    to stderr and the status is 1), another exception that nothing
    catches (status 1 as well), or [main] returning its status after
    writing the page and printing. *)
Inductive Termination :=
| SystemExit (message : string)
| Raised
| Returned (code : Z) (output_path : string) (html : Page) (stdout : list string).

Definition exit_status (t : Termination) : Z :=
  match t with
  | SystemExit _ => 1
  | Raised => 1
  | Returned code _ _ _ => code
  end.

Definition or_raise {A : Type} (o : option A) (k : A -> Termination) : Termination :=
  match o with
  | Some a => k a
  | None => Raised
  end.

(** [charts.keys()] *)
Definition keys (d : json) : list string :=
  match d with
  | JDict items => map fst items
  | _ => []
  end.

(** [_extract_xy(series.get(name) or {})] *)
Definition extract_named (series : json) (name : string)
  : option (list Z * list float) :=
  match get series name with
  | None => None
  | Some v => _extract_xy (py_or v (JDict []))
  end.

Definition trade_line (t : Trade) : string :=
  "- " ++ time_utc t ++ " " ++ side t ++ " @ " ++ format_4f (price t).

Definition main (args : Namespace) (fs : FileSystem) : Termination :=
  let input_path := resolve fs (input args) in
  if negb (exists_ fs input_path) then
    SystemExit ("Input json not found: " ++ input_path)
  else
    let output_path :=
      match output args with
      | Some o => if String.eqb o "" then viz_path fs input_path else resolve fs o
      | None => viz_path fs input_path
      end in
    or_raise (json_load fs input_path) (fun result =>
    or_raise (get result "charts") (fun c =>
    let charts := py_or c (JDict []) in
    or_raise (get charts (chart args)) (fun chart_ =>
    match chart_ with
    | JNull =>
        let available := join ", " (sort (fun k => k) (keys charts)) in
        SystemExit ("Chart '" ++ chart args ++ "' not found. Available: " ++ available)
    | _ =>
        or_raise (get chart_ "series") (fun s =>
        let series := py_or s (JDict []) in
        or_raise (extract_named series "Price") (fun price =>
        or_raise (extract_named series "FastSMA") (fun fast =>
        or_raise (extract_named series "SlowSMA") (fun slow =>
        or_raise (extract_named series "Buy") (fun buy =>
        or_raise (extract_named series "Sell") (fun sell =>
        or_raise (_build_trades_table (fst buy) (snd buy) (fst sell) (snd sell))
          (fun table =>
        let trades := snd table in
        let html :=
          {| title := "LEAN Backtest: " ++ chart args ++ " (Price + Trades + SMA)";
             price_x := fst price; price_y := snd price;
             buy_x := fst buy;     buy_y := snd buy;
             sell_x := fst sell;   sell_y := snd sell;
             fast_x := fst fast;   fast_y := snd fast;
             slow_x := fst slow;   slow_y := snd slow;
             trades_rows_html := fst table |} in
        if negb (writable fs output_path) then Raised
        else
          Returned 0 output_path html
            (match trades with
             | [] => []
             | _ => "Trades (UTC):" :: map trade_line trades
             end ++ [output_path]))))))))
    end))).

(** *** The loop of [_extract_xy], point by point

    Whether the head of the loop body accepts the shape of a point. *)
Definition is_point (item : json) : bool :=
  match item with
  | JList [_; _] => true
  | JDict kvs => contains kvs "x" && contains kvs "y"
  | _ => false
  end.

(** The timestamp a point adds to [xs_ms] and the value it adds to [ys],
    if any. *)
Definition timestamp_of (item : json) : option Z :=
  match unpack item with
  | Some (x_s, _) =>
      match python_int x_s with
      | Some n => Some (n * 1000)%Z
      | None => None
      end
  | None => None
  end.

Definition value_of (item : json) : option float :=
  match unpack item with
  | Some (x_s, y) =>
      match python_int x_s with
      | Some _ => python_float y
      | None => None
      end
  | None => None
  end.

Fixpoint somes {A : Type} (l : list (option A)) : list A :=
  match l with
  | [] => []
  | Some a :: rest => a :: somes rest
  | None :: rest => somes rest
  end.

(** [o] is an object that maps x and y to the two components of [p]. *)
Definition object_of (o : json) (p : json * json) : Prop :=
  exists kvs, o = JDict kvs /\ lookup kvs "x" = Some (fst p) /\ lookup kvs "y" = Some (snd p).

(** A value that is no [dict], and one a [for] loop cannot run over. *)
Definition is_dict (v : json) : bool :=
  match v with JDict _ => true | _ => false end.

Definition is_scalar (v : json) : bool :=
  match v with JBool _ | JInt _ | JFloat _ => true | _ => false end.

(** The trades of one side. *)
Definition has_side (sd : string) (t : Trade) : bool := String.eqb (side t) sd.

(** The path [main] writes to. *)
Definition chosen_output_path (args : Namespace) (fs : FileSystem) : string :=
  match output args with
  | Some o =>
      if String.eqb o "" then viz_path fs (resolve fs (input args)) else resolve fs o
  | None => viz_path fs (resolve fs (input args))
  end.

(** The lines [main] prints. *)
Definition printed (trades : list Trade) (output_path : string) : list string :=
  match trades with
  | [] => []
  | _ => "Trades (UTC):" :: map trade_line trades
  end ++ [output_path].

Definition empty_page (title_ : string) : Page :=
  {| title := title_;
     price_x := []; price_y := [];
     buy_x := [];   buy_y := [];
     sell_x := [];  sell_y := [];
     fast_x := [];  fast_y := [];
     slow_x := [];  slow_y := [];
     trades_rows_html := no_trades_html |}.

End Tool.

End visualize_lean_charts.

(** ** A runtime to evaluate the tool on concrete inputs

    An instance of [PyRuntime] in exact arithmetic: a [float] is a rational
    (no rounding, no infinity, no nan), [int()] and [float()] of a string
    read an optionally signed run of decimal digits, and the calendar is the
    proleptic Gregorian one over the years 1 to 9999.  The theorems on the
    tool hold for every runtime; this one runs the examples. *)

Module Exact.

Import visualize_lean_charts.

Definition digit_of (c : ascii) : option Z :=
  let n := Z.of_nat (nat_of_ascii c) in
  if (48 <=? n)%Z && (n <=? 57)%Z then Some (n - 48)%Z else None.

Fixpoint digits (acc : Z) (s : string) : option Z :=
  match s with
  | EmptyString => Some acc
  | String c rest =>
      match digit_of c with
      | Some d => digits (acc * 10 + d)%Z rest
      | None => None
      end
  end.

Definition parse_int (s : string) : option Z :=
  match s with
  | EmptyString => None
  | String c rest =>
      if Ascii.eqb c "-"%char then
        match rest with
        | EmptyString => None
        | _ => option_map Z.opp (digits 0 rest)
        end
      else if Ascii.eqb c "+"%char then
        match rest with
        | EmptyString => None
        | _ => digits 0 rest
        end
      else digits 0 s
  end.

Definition digit_char (d : Z) : ascii := ascii_of_nat (Z.to_nat (48 + d)).

(** [n] in decimal, at least [width] digits, [n] non-negative. *)
Fixpoint decimal (width : nat) (fuel : nat) (n : Z) (acc : string) : string :=
  match fuel with
  | O => acc
  | S fuel' =>
      let acc' := String (digit_char (n mod 10)) acc in
      let width' := Nat.pred width in
      if (n / 10 =? 0)%Z && Nat.eqb width' 0 then acc'
      else decimal width' fuel' (n / 10) acc'
  end.

Definition padded (width : nat) (n : Z) : string :=
  decimal width (width + Z.to_nat (Z.log2 n) + 1) n "".

(** Year, month and day of a day count from 1970-01-01. *)
Definition civil_from_days (days : Z) : Z * Z * Z :=
  let z := (days + 719468)%Z in
  let era := (z / 146097)%Z in
  let doe := (z - era * 146097)%Z in
  let yoe := ((doe - doe / 1460 + doe / 36524 - doe / 146096) / 365)%Z in
  let doy := (doe - (365 * yoe + yoe / 4 - yoe / 100))%Z in
  let mp := ((5 * doy + 2) / 153)%Z in
  let d := (doy - (153 * mp + 2) / 5 + 1)%Z in
  let m := (if mp <? 10 then mp + 3 else mp - 9)%Z in
  let y := (yoe + era * 400 + (if m <=? 2 then 1 else 0))%Z in
  (y, m, d).

(** One [%] directive of [strftime] on whole seconds since the epoch. *)
Definition directive (secs : Z) (c : ascii) : string :=
  let '(y, m, d) := civil_from_days (secs / 86400) in
  let sod := (secs mod 86400)%Z in
  if Ascii.eqb c "Y"%char then padded 4 y
  else if Ascii.eqb c "m"%char then padded 2 m
  else if Ascii.eqb c "d"%char then padded 2 d
  else if Ascii.eqb c "H"%char then padded 2 (sod / 3600)
  else if Ascii.eqb c "M"%char then padded 2 (sod mod 3600 / 60)
  else if Ascii.eqb c "S"%char then padded 2 (sod mod 60)
  else String "%"%char (String c EmptyString).

Fixpoint format_time (after_percent : bool) (secs : Z) (fmt : string) : string :=
  match fmt with
  | EmptyString => if after_percent then "%" else ""
  | String c rest =>
      if after_percent then (directive secs c ++ format_time false secs rest)%string
      else if Ascii.eqb c "%"%char then format_time true secs rest
      else String c (format_time false secs rest)
  end.

(** [format(v, ".4f")]: the nearest multiple of 1/10000, ties to even. *)
Definition round_half_even (q : Q) : Z :=
  let fl := Qfloor q in
  match Qcompare (q - inject_Z fl) (1 # 2) with
  | Lt => fl
  | Gt => (fl + 1)%Z
  | Eq => if Z.even fl then fl else (fl + 1)%Z
  end.

Definition fixed4 (v : Q) : string :=
  let n := round_half_even (Qabs v * 10000) in
  ((if Qltb v 0 && negb (n =? 0)%Z then "-" else "")
   ++ padded 1 (n / 10000) ++ "." ++ padded 4 (n mod 10000))%string.

#[export] Instance runtime : PyRuntime := {|
  float := Q;
  float_truthy := fun f => negb (Qeq_bool f 0);
  int_of_float := fun f => Some (Z.quot (Qnum f) (Zpos (Qden f)));
  int_of_str := parse_int;
  float_of_int := fun n => Some (inject_Z n);
  float_of_str := fun s => option_map inject_Z (parse_int s);
  truediv := fun n d => if (d =? 0)%Z then None else Some (Qred (inject_Z n / inject_Z d));
  datetime := Z;
  fromtimestamp_utc := fun t =>
    let secs := Qfloor t in
    if (-62135596800 <=? secs)%Z && (secs <=? 253402300799)%Z then Some secs else None;
  strftime := format_time false;
  format_4f := fixed4
|}.

(** A float of a JSON text in this runtime. *)
Definition num (q : Q) : @json runtime := JFloat q.

(** A file system with one readable file. *)
Definition one_file (path : string) (content : json) : FileSystem :=
  {| resolve := fun p => p;
     exists_ := fun p => String.eqb p path;
     json_load := fun p => if String.eqb p path then Some content else None;
     viz_path := fun p => (p ++ "-viz.html")%string;
     writable := fun _ => true |}.

End Exact.

(** ** Sample inputs *)

Module Samples.

Import SimpleSmaCrossDemoAlgorithm.

Definition ready (v : Q) : Indicator := {| is_ready := true; current_value := v |}.
Definition unready : Indicator := {| is_ready := false; current_value := 0 |}.

(** A slice with one bar of SPY. *)
Definition spy_bar (c : Q) : Slice := [("SPY", Some {| close := c |})].

(** The object in the middle of a run: both averages ready at the given
    values, with the stored flag [was]. *)
Definition running (warming : bool) (fastv slowv : Q) (was : option bool) : QCAlgorithm :=
  set_was_fast_above
    (engine_update initialize
       {| step_warming_up := warming; step_fast := ready fastv;
          step_slow := ready slowv; step_data := [] |})
    was.

Definition ready_step (fastv slowv : Q) : Step :=
  {| step_warming_up := false; step_fast := ready fastv;
     step_slow := ready slowv; step_data := spy_bar fastv |}.

Definition unready_step (warming : bool) : Step :=
  {| step_warming_up := warming; step_fast := ready 10;
     step_slow := unready; step_data := spy_bar 10 |}.

Definition filled (quantity price_ : Q) : OrderEvent :=
  {| status := FILLED; fill_quantity := quantity; fill_price := price_; utc_time := 0 |}.

(** 2020-01-01T00:00:00Z in epoch milliseconds. *)
Definition new_year_2020 : Z := 1577836800000.

(** A buy at 100 and a sell at 101, both at that instant, in the exact
    runtime. *)
Definition new_year_trades : list (@visualize_lean_charts.Trade Exact.runtime) :=
  [ ("2020-01-01 00:00:00", "BUY", 100); ("2020-01-01 00:00:00", "SELL", 101) ].

(** A result file with the charts QQQ and IWM and no chart SPY. *)
Definition two_charts : @visualize_lean_charts.json Exact.runtime :=
  visualize_lean_charts.JDict
    [ ("charts",
       visualize_lean_charts.JDict
         [ ("QQQ", visualize_lean_charts.JDict []);
           ("IWM", visualize_lean_charts.JDict []) ]) ].

Definition spy_args : visualize_lean_charts.Namespace :=
  {| visualize_lean_charts.input := "backtest.json";
     visualize_lean_charts.chart := "SPY";
     visualize_lean_charts.output := None |}.

(** Result files: SPY with the value null beside a chart QQQ; SPY with a
    list for value; SPY an empty object; SPY with one buy and one sell
    marker at that instant. *)
Definition null_chart : @visualize_lean_charts.json Exact.runtime :=
  visualize_lean_charts.JDict
    [ ("charts",
       visualize_lean_charts.JDict
         [ ("SPY", visualize_lean_charts.JNull);
           ("QQQ", visualize_lean_charts.JDict []) ]) ].

Definition list_chart : @visualize_lean_charts.json Exact.runtime :=
  visualize_lean_charts.JDict
    [ ("charts",
       visualize_lean_charts.JDict
         [ ("SPY", visualize_lean_charts.JList [visualize_lean_charts.JInt 1]) ]) ].

Definition bare_chart : @visualize_lean_charts.json Exact.runtime :=
  visualize_lean_charts.JDict
    [ ("charts",
       visualize_lean_charts.JDict [ ("SPY", visualize_lean_charts.JDict []) ]) ].

Definition marker_series (value : Q) : @visualize_lean_charts.json Exact.runtime :=
  visualize_lean_charts.series_of
    [ visualize_lean_charts.JList [visualize_lean_charts.JInt 1577836800; Exact.num value] ].

Definition traded_chart : @visualize_lean_charts.json Exact.runtime :=
  visualize_lean_charts.JDict
    [ ("charts",
       visualize_lean_charts.JDict
         [ ("SPY",
            visualize_lean_charts.JDict
              [ ("series",
                 visualize_lean_charts.JDict
                   [ ("Sell", marker_series 101); ("Buy", marker_series 100) ]) ]) ]) ].


End Samples.

(** * Properties *)

(** ** Comparisons on rationals *)

Lemma Qgtb_true_iff (a b : Q) : Qgtb a b = true <-> (b < a)%Q.
Proof.
  unfold Qgtb. change (b < a)%Q with (a > b)%Q. rewrite Qgt_alt.
  destruct (Qcompare a b); split; congruence.
Qed.

Lemma Qltb_true_iff (a b : Q) : Qltb a b = true <-> (a < b)%Q.
Proof.
  unfold Qltb. rewrite Qlt_alt.
  destruct (Qcompare a b); split; congruence.
Qed.

Lemma Qgtb_eq_false (a b : Q) : (a == b)%Q -> Qgtb a b = false.
Proof.
  intros H. unfold Qgtb. apply Qeq_alt in H. now rewrite H.
Qed.

Lemma Qltb_eq_false (a b : Q) : (a == b)%Q -> Qltb a b = false.
Proof.
  intros H. unfold Qltb. apply Qeq_alt in H. now rewrite H.
Qed.

(** ** The crossover detector and the fill recorder *)

Section Detector.

Import SimpleSmaCrossDemoAlgorithm.

(** A call that fails a guard returns at once. *)
Lemma on_data_skipped self data :
  reaches_comparison self data = false -> on_data self data = (self, []).
Proof.
  unfold reaches_comparison, on_data.
  destruct (is_warming_up self); [reflexivity|].
  destruct (is_ready (_fast self) && is_ready (_slow self)); [|reflexivity].
  destruct (contains_key data (_symbol self)); [|reflexivity].
  destruct (getitem data (_symbol self)); simpl; [discriminate|reflexivity].
Qed.

Lemma on_data_not_ready self data :
  is_ready (_fast self) && is_ready (_slow self) = false ->
  on_data self data = (self, []).
Proof.
  intros H. apply on_data_skipped. unfold reaches_comparison.
  rewrite H. now rewrite andb_false_r.
Qed.

(** A call that passes the guards, by the stored flag. *)
Lemma on_data_compared self data :
  reaches_comparison self data = true ->
  exists bar,
    getitem data (_symbol self) = Some bar /\
    on_data self data =
      (set_was_fast_above self (Some (is_fast_above_of self)),
       match _was_fast_above self with
       | None => plots_of self bar
       | Some was =>
           plots_of self bar ++
           (if is_fast_above_of self && negb was then [set_holdings (_symbol self) 1]
            else if negb (is_fast_above_of self) && was then [liquidate (_symbol self)]
            else [])
       end).
Proof.
  unfold reaches_comparison, on_data, is_fast_above_of, plots_of.
  destruct (is_warming_up self); [discriminate|].
  destruct (is_ready (_fast self) && is_ready (_slow self)); [|discriminate].
  destruct (contains_key data (_symbol self)); [|discriminate].
  destruct (getitem data (_symbol self)) as [bar|]; [|discriminate].
  intros _. exists bar. split; [reflexivity|].
  simpl. now destruct (_was_fast_above self).
Qed.

Lemma signal_of_plots self bar orders :
  signal_of (plots_of self bar ++ orders) = signal_of orders.
Proof. reflexivity. Qed.

Lemma signal_of_orders symbol (now was : bool) :
  signal_of (if now && negb was then [set_holdings symbol 1]
             else if negb now && was then [liquidate symbol]
             else []) = crossing was now.
Proof. now destruct now, was. Qed.

(** The signal and the stored flag of a call made with the flag set. *)
Lemma on_data_crossing self data was :
  reaches_comparison self data = true ->
  _was_fast_above self = Some was ->
  signal_of (snd (on_data self data)) = crossing was (is_fast_above_of self) /\
  _was_fast_above (fst (on_data self data)) = Some (is_fast_above_of self).
Proof.
  intros Hr Hw. destruct (on_data_compared self data Hr) as (bar & _ & ->).
  rewrite Hw. cbn [fst snd]. split; [|reflexivity].
  rewrite signal_of_plots. apply signal_of_orders.
Qed.

(** *** Equality of the two averages *)

(** C1, as the code has it: a call made with the flag set that compares two
    equal averages finds [is_fast_above] false and stores it.  It never
    enters; with the flag false it gives no signal, with the flag true it
    liquidates (Exit) and the flag is cleared. *)
Theorem equal_averages_are_not_above self data was :
  reaches_comparison self data = true ->
  _was_fast_above self = Some was ->
  (current_value (_fast self) == current_value (_slow self))%Q ->
  is_fast_above_of self = false /\
  signal_of (snd (on_data self data)) = (if was then Exit else NoSignal) /\
  signal_of (snd (on_data self data)) <> Enter /\
  _was_fast_above (fst (on_data self data)) = Some false.
Proof.
  intros Hr Hw Heq.
  assert (Ha : is_fast_above_of self = false) by now apply Qgtb_eq_false.
  destruct (on_data_crossing self data was Hr Hw) as [Hs Hf].
  rewrite Ha in Hs, Hf. rewrite Hs, Hf.
  destruct was; repeat split; try assumption; try reflexivity; discriminate.
Qed.

Lemma equal_averages_are_not_above_witness :
  signal_of (snd (on_data (Samples.running false 3 3 (Some false)) (Samples.spy_bar 3)))
  = NoSignal.
Proof.
  apply (equal_averages_are_not_above
           (Samples.running false 3 3 (Some false)) (Samples.spy_bar 3) false);
    reflexivity.
Defined.

(** C1 as stated fails: after a step with the fast average above, a step
    with equal averages liquidates and clears the stored flag. *)
Lemma equal_averages_exit_when_above :
  let self := Samples.running false 3 3 (Some true) in
  let data := Samples.spy_bar 3 in
  reaches_comparison self data = true /\
  _was_fast_above self = Some true /\
  (current_value (_fast self) == current_value (_slow self))%Q /\
  signal_of (snd (on_data self data)) = Exit /\
  _was_fast_above (fst (on_data self data)) = Some false.
Proof. repeat split. Qed.

(** *** The first compared step *)

(** C4, as the code has it: a call made with the flag unset places no order,
    whatever the two averages are; it sets the flag to [is_fast_above] when
    it passes the guards (warm-up over, both averages ready, a bar in the
    slice), and otherwise leaves the object as it was. *)
Theorem unset_flag_step_never_trades self data :
  _was_fast_above self = None ->
  signal_of (snd (on_data self data)) = NoSignal /\
  (reaches_comparison self data = true ->
   _was_fast_above (fst (on_data self data)) = Some (is_fast_above_of self)) /\
  (reaches_comparison self data = false -> fst (on_data self data) = self).
Proof.
  intros Hw. destruct (reaches_comparison self data) eqn:Hr.
  - destruct (on_data_compared self data Hr) as (bar & _ & ->).
    rewrite Hw. cbn [fst snd]. repeat split; trivial. discriminate.
  - rewrite (on_data_skipped self data Hr). repeat split; trivial. discriminate.
Qed.

Lemma unset_flag_step_never_trades_witness :
  signal_of (snd (on_data (Samples.running false 5 3 None) (Samples.spy_bar 5))) = NoSignal
  /\ _was_fast_above (fst (on_data (Samples.running false 5 3 None) (Samples.spy_bar 5)))
     = Some true.
Proof.
  destruct (unset_flag_step_never_trades
              (Samples.running false 5 3 None) (Samples.spy_bar 5) eq_refl)
    as (Hs & Hi & _).
  split; [exact Hs | exact (Hi eq_refl)].
Defined.

(** C4 as stated fails: both averages are ready for the first time on a
    bar of the warm-up, and the call returns with the flag still unset. *)
Lemma ready_during_warm_up_is_not_initialized :
  let self := Samples.running true 5 3 None in
  let data := Samples.spy_bar 5 in
  is_ready (_fast self) && is_ready (_slow self) = true /\
  _was_fast_above self = None /\
  _was_fast_above (fst (on_data self data)) = None.
Proof. repeat split. Qed.

(** *** Steps before the averages are ready *)

Lemma deliver_not_ready self s :
  both_ready s = false ->
  deliver self s = (engine_update self s, NoSignal).
Proof.
  intros H. unfold deliver.
  now rewrite (on_data_not_ready (engine_update self s) (step_data s) H).
Qed.

(** C5: a call made while the two averages are not both ready returns the
    object as it got it and makes no engine call; over any run of such
    steps every signal is [NoSignal] and the stored flag keeps its value. *)
Theorem not_ready_steps_are_inert self steps :
  Forall (fun s => both_ready s = false) steps ->
  Forall (fun s => forall self0,
            on_data (engine_update self0 s) (step_data s) = (engine_update self0 s, []))
         steps /\
  snd (run self steps) = repeat NoSignal (length steps) /\
  _was_fast_above (fst (run self steps)) = _was_fast_above self.
Proof.
  intros H. split.
  - eapply Forall_impl; [|exact H]. intros s Hs self0. now apply on_data_not_ready.
  - revert self. induction H as [|s rest Hs _ IH]; intros self; [now split|].
    cbn [run]. rewrite (deliver_not_ready self s Hs).
    specialize (IH (engine_update self s)).
    destruct (run (engine_update self s) rest) as [self2 es].
    cbn [fst snd] in *. destruct IH as [-> ->]. now split.
Qed.

Lemma not_ready_steps_are_inert_witness :
  snd (run initialize [Samples.unready_step true; Samples.unready_step false])
  = [NoSignal; NoSignal].
Proof.
  apply (not_ready_steps_are_inert initialize
           [Samples.unready_step true; Samples.unready_step false]).
  repeat constructor.
Defined.

(** *** Counting the crossings of a run *)

Lemma deliver_compared self s was :
  compares self s = true ->
  _was_fast_above self = Some was ->
  exists self1,
    deliver self s = (self1, crossing was (step_is_fast_above s)) /\
    _was_fast_above self1 = Some (step_is_fast_above s) /\
    _symbol self1 = _symbol self.
Proof.
  unfold compares, deliver. intros Hr Hw.
  destruct (on_data_crossing (engine_update self s) (step_data s) was Hr Hw) as [Hs Hf].
  destruct (on_data_compared (engine_update self s) (step_data s) Hr) as (bar & _ & He).
  destruct (on_data (engine_update self s) (step_data s)) as [self1 calls].
  cbn [fst snd] in *. exists self1. repeat split.
  - now rewrite Hs.
  - exact Hf.
  - injection He as -> _. reflexivity.
Qed.

Lemma deliver_compared_eq self s was :
  compares self s = true ->
  _was_fast_above self = Some was ->
  deliver self s
  = (set_was_fast_above (engine_update self s) (Some (step_is_fast_above s)),
     crossing was (step_is_fast_above s)).
Proof.
  unfold compares, deliver. intros Hr Hw.
  destruct (on_data_crossing (engine_update self s) (step_data s) was Hr Hw) as [Hs _].
  destruct (on_data_compared (engine_update self s) (step_data s) Hr) as (bar & _ & He).
  rewrite He in *. cbn [fst snd] in Hs. now rewrite Hs.
Qed.

(** A step that fails a guard gives no signal and keeps the stored flag. *)
Lemma deliver_skipped self s :
  compares self s = false ->
  deliver self s = (engine_update self s, NoSignal).
Proof.
  unfold compares, deliver. intros Hr. now rewrite (on_data_skipped _ _ Hr).
Qed.

Lemma compares_same_symbol self self1 s :
  _symbol self1 = _symbol self -> compares self1 s = compares self s.
Proof.
  unfold compares, reaches_comparison. cbn. now intros ->.
Qed.

Lemma count_crossings_up was bs :
  count_signal Enter (crossings was bs) = transitions false true (was :: bs).
Proof.
  revert was. induction bs as [|b rest IH]; intros was; [reflexivity|].
  cbn [crossings]. unfold count_signal in *. cbn [filter].
  specialize (IH b). change (transitions false true (was :: b :: rest))
    with ((if Bool.eqb was false && Bool.eqb b true then 1 else 0)
          + transitions false true (b :: rest))%nat.
  rewrite <- IH. now destruct was, b.
Qed.

Lemma count_crossings_down was bs :
  count_signal Exit (crossings was bs) = transitions true false (was :: bs).
Proof.
  revert was. induction bs as [|b rest IH]; intros was; [reflexivity|].
  cbn [crossings]. unfold count_signal in *. cbn [filter].
  specialize (IH b). change (transitions true false (was :: b :: rest))
    with ((if Bool.eqb was true && Bool.eqb b false then 1 else 0)
          + transitions true false (b :: rest))%nat.
  rewrite <- IH. now destruct was, b.
Qed.

Lemma count_signals_total evs :
  (count_signal Enter evs + count_signal Exit evs + count_signal NoSignal evs
   = length evs)%nat.
Proof.
  unfold count_signal. induction evs as [|e rest IH]; [reflexivity|].
  destruct e; cbn [filter SignalEvent_eqb length]; lia.
Qed.

Lemma length_crossings was bs : length (crossings was bs) = length bs.
Proof.
  revert was. induction bs as [|b rest IH]; intros was; cbn; [reflexivity|].
  now rewrite IH.
Qed.

Lemma last_cons_any {A : Type} (a : A) l d d' : last (a :: l) d = last (a :: l) d'.
Proof.
  revert a. induction l as [|b rest IH]; intros a; [reflexivity|].
  change (last (b :: rest) d = last (b :: rest) d'). apply IH.
Qed.

Lemma last_cons_shift {A : Type} (a : A) l d : last (a :: l) d = last l a.
Proof.
  destruct l as [|b rest]; [reflexivity|].
  change (last (b :: rest) d = last (b :: rest) a). apply last_cons_any.
Qed.

Lemma run_compared self steps was :
  _was_fast_above self = Some was ->
  Forall (fun s => compares self s = true) steps ->
  snd (run self steps) = crossings was (map step_is_fast_above steps) /\
  _was_fast_above (fst (run self steps))
  = Some (last (map step_is_fast_above steps) was).
Proof.
  intros Hw H. revert self was Hw H.
  induction steps as [|s rest IH]; intros self was Hw H; [now split|].
  inversion H as [|s' rest' Hs Hrest]; subst.
  destruct (deliver_compared self s was Hs Hw) as (self1 & Hd & Hw1 & Hsym).
  cbn [run]. rewrite Hd.
  assert (H1 : Forall (fun s0 => compares self1 s0 = true) rest).
  { eapply Forall_impl; [|exact Hrest]. intros s0 Hs0.
    now rewrite (compares_same_symbol self self1 s0 Hsym). }
  specialize (IH self1 (step_is_fast_above s) Hw1 H1).
  destruct (run self1 rest) as [self2 es]. cbn [fst snd] in *.
  destruct IH as [-> ->]. split; [reflexivity|].
  cbn [map]. now rewrite last_cons_shift.
Qed.

Lemma last_map_Some (bs : list bool) (was : bool) :
  last (map Some bs) (Some was) = Some (last bs was).
Proof.
  revert was. induction bs as [|b rest IH]; intros was; [reflexivity|].
  cbn [map]. now rewrite !last_cons_shift.
Qed.

Lemma deliver_unset self s :
  compares self s = true ->
  _was_fast_above self = None ->
  deliver self s
  = (set_was_fast_above (engine_update self s) (Some (step_is_fast_above s)), NoSignal).
Proof.
  unfold compares, deliver. intros Hr Hw.
  destruct (on_data_compared (engine_update self s) (step_data s) Hr) as (bar & _ & ->).
  cbn [engine_update _was_fast_above]. now rewrite Hw.
Qed.

Lemma run_signals self steps :
  Forall (fun s => compares self s = true) steps ->
  snd (run self steps)
  = signals_from (_was_fast_above self) (map step_is_fast_above steps) /\
  _was_fast_above (fst (run self steps))
  = last (map Some (map step_is_fast_above steps)) (_was_fast_above self).
Proof.
  intros H. destruct (_was_fast_above self) as [was|] eqn:Hw.
  - destruct (run_compared self steps was Hw H) as [-> ->].
    now rewrite last_map_Some.
  - destruct steps as [|s rest]; [split; [reflexivity|exact Hw]|].
    inversion H as [|s' rest' Hs Hrest]; subst.
    cbn [run]. rewrite (deliver_unset self s Hs Hw).
    set (self1 := set_was_fast_above (engine_update self s) (Some (step_is_fast_above s))).
    assert (H1 : Forall (fun s0 => compares self1 s0 = true) rest).
    { eapply Forall_impl; [|exact Hrest]. intros s0 Hs0.
      now rewrite (compares_same_symbol self self1 s0 eq_refl). }
    destruct (run_compared self1 rest (step_is_fast_above s) eq_refl H1) as [He Hf].
    destruct (run self1 rest) as [self2 es]. cbn [fst snd] in *.
    rewrite He, Hf. cbn [map signals_from]. split; [reflexivity|].
    now rewrite last_cons_shift, last_map_Some.
Qed.

Lemma count_signals_from_up start bs :
  count_signal Enter (signals_from start bs) = transitions false true (seen start bs).
Proof.
  destruct start as [was|]; [apply count_crossings_up|].
  destruct bs as [|b rest]; [reflexivity|]. apply (count_crossings_up b rest).
Qed.

Lemma count_signals_from_down start bs :
  count_signal Exit (signals_from start bs) = transitions true false (seen start bs).
Proof.
  destruct start as [was|]; [apply count_crossings_down|].
  destruct bs as [|b rest]; [reflexivity|]. apply (count_crossings_down b rest).
Qed.

Lemma length_signals_from start bs : length (signals_from start bs) = length bs.
Proof.
  destruct start as [was|]; [apply length_crossings|].
  destruct bs as [|b rest]; [reflexivity|]. cbn. now rewrite length_crossings.
Qed.

Example transitions_of_a_sequence :
  transitions false true [false; true; true; false; true] = 2%nat /\
  transitions true false [false; true; true; false; true] = 1%nat.
Proof. split; reflexivity. Qed.

(** C3: over a run of steps that each compare the two averages, the
    signals are the crossings of the sequence of [is_fast_above] values the
    detector has seen since it was initialized (the stored flag, then the
    value of each step): as many Enter as changes from false to true, as
    many Exit as changes from true to false, and no signal at any other
    step.  Every step made with the flag set stores its [is_fast_above]
    and returns the crossing from the stored flag to it. *)
Theorem crossing_counts self steps :
  Forall (fun s => compares self s = true) steps ->
  let bs := map step_is_fast_above steps in
  let evs := snd (run self steps) in
  let all := seen (_was_fast_above self) bs in
  evs = signals_from (_was_fast_above self) bs /\
  count_signal Enter evs = transitions false true all /\
  count_signal Exit evs = transitions true false all /\
  (count_signal NoSignal evs
   = length bs - transitions false true all - transitions true false all)%nat /\
  _was_fast_above (fst (run self steps)) = last (map Some bs) (_was_fast_above self) /\
  (forall s self0 was0,
     In s steps -> _symbol self0 = _symbol self -> _was_fast_above self0 = Some was0 ->
     deliver self0 s
     = (set_was_fast_above (engine_update self0 s) (Some (step_is_fast_above s)),
        crossing was0 (step_is_fast_above s))).
Proof.
  intros H bs evs all.
  destruct (run_signals self steps H) as [He Hf].
  fold bs in He, Hf. fold evs in He.
  assert (Hup := count_signals_from_up (_was_fast_above self) bs).
  assert (Hdown := count_signals_from_down (_was_fast_above self) bs).
  assert (Htot := count_signals_total evs).
  rewrite He in *. rewrite length_signals_from in Htot. fold all in Hup, Hdown.
  repeat split; trivial; [lia|].
  intros s self0 was0 Hin Hsym Hw0.
  rewrite Forall_forall in H. specialize (H s Hin).
  rewrite <- (compares_same_symbol self self0 s Hsym) in H.
  now apply deliver_compared_eq.
Qed.

Lemma crossing_counts_witness :
  snd (run (Samples.running false 1 2 (Some false))
         [Samples.ready_step 3 2; Samples.ready_step 4 2;
          Samples.ready_step 2 2; Samples.ready_step 5 2])
  = [Enter; NoSignal; Exit; Enter].
Proof.
  apply (crossing_counts (Samples.running false 1 2 (Some false))
           [Samples.ready_step 3 2; Samples.ready_step 4 2;
            Samples.ready_step 2 2; Samples.ready_step 5 2]).
  repeat constructor.
Defined.

(** The scenario of the fast average at 10.0 then 9.0 against the slow one
    at 9.5: the first step initializes, the second is an Exit. *)
Example first_step_initializes_then_exit :
  run (Samples.running false 0 0 None)
      [Samples.ready_step 10 (95 # 10); Samples.ready_step 9 (95 # 10)]
  = (Samples.running false 9 (95 # 10) (Some false), [NoSignal; Exit]).
Proof. reflexivity. Qed.

(** *** Fills *)

(** C7: an event whose fill quantity is zero plots nothing and returns the
    object as it was, whatever its status, price and time; a filled order
    with a positive quantity adds one Buy marker at the fill price, one
    with a negative quantity one Sell marker. *)
Theorem fill_is_classified_by_sign self order_event :
  ((fill_quantity order_event == 0)%Q ->
   on_order_event self order_event = (self, [])) /\
  (status order_event = FILLED -> (0 < fill_quantity order_event)%Q ->
   on_order_event self order_event
   = (self, [plot (_ticker self) "Buy" (fill_price order_event)]) /\
   markers (snd (on_order_event self order_event)) = [(BUY, fill_price order_event)]) /\
  (status order_event = FILLED -> (fill_quantity order_event < 0)%Q ->
   on_order_event self order_event
   = (self, [plot (_ticker self) "Sell" (fill_price order_event)]) /\
   markers (snd (on_order_event self order_event)) = [(SELL, fill_price order_event)]).
Proof.
  unfold on_order_event. repeat split.
  - intros H0. rewrite (Qgtb_eq_false _ _ H0), (Qltb_eq_false _ _ H0).
    now destruct (is_filled (status order_event)).
  - rewrite H. cbn [is_filled negb]. apply Qgtb_true_iff in H0. now rewrite H0.
  - rewrite H. cbn [is_filled negb]. apply Qgtb_true_iff in H0. now rewrite H0.
  - rewrite H. cbn [is_filled negb].
    assert (Hg : Qgtb (fill_quantity order_event) 0 = false).
    { destruct (Qgtb (fill_quantity order_event) 0) eqn:E; [|reflexivity].
      apply Qgtb_true_iff in E. exfalso. exact (Qlt_irrefl _ (Qlt_trans _ _ _ E H0)). }
    rewrite Hg. apply Qltb_true_iff in H0. now rewrite H0.
  - rewrite H. cbn [is_filled negb].
    assert (Hg : Qgtb (fill_quantity order_event) 0 = false).
    { destruct (Qgtb (fill_quantity order_event) 0) eqn:E; [|reflexivity].
      apply Qgtb_true_iff in E. exfalso. exact (Qlt_irrefl _ (Qlt_trans _ _ _ E H0)). }
    rewrite Hg. apply Qltb_true_iff in H0. now rewrite H0.
Qed.

Lemma fill_is_classified_by_sign_witness :
  on_order_event initialize (Samples.filled 0 300) = (initialize, []) /\
  markers (snd (on_order_event initialize (Samples.filled 10 300))) = [(BUY, 300)] /\
  markers (snd (on_order_event initialize (Samples.filled (-10) 310))) = [(SELL, 310)].
Proof.
  split; [|split].
  - apply (fill_is_classified_by_sign initialize (Samples.filled 0 300)). reflexivity.
  - apply (fill_is_classified_by_sign initialize (Samples.filled 10 300));
      reflexivity.
  - apply (fill_is_classified_by_sign initialize (Samples.filled (-10) 310));
      reflexivity.
Defined.

End Detector.

(** ** The order of strings and the stable sort *)

Section StringOrder.

Lemma leb_refl (s : string) : String.leb s s = true.
Proof.
  assert (E : String.compare s s = Eq) by now apply (String_as_OT.cmp_eq s s).
  unfold String.leb. now rewrite E.
Qed.

Lemma leb_false_flip (a b : string) : String.leb a b = false -> String.leb b a = true.
Proof.
  intros H. destruct (String.leb_total a b) as [H1|H1]; congruence.
Qed.

Lemma leb_iff (a b : string) :
  String.leb a b = true <-> a = b \/ String_as_OT.lt a b.
Proof.
  unfold String.leb. destruct (String.compare a b) eqn:E.
  - apply String_as_OT.cmp_eq in E. intuition.
  - apply String_as_OT.cmp_lt in E. intuition.
  - split; [discriminate|]. intros [H|H].
    + apply String_as_OT.cmp_eq in H. unfold String_as_OT.cmp in H. congruence.
    + apply String_as_OT.cmp_lt in H. unfold String_as_OT.cmp in H. congruence.
Qed.

Lemma leb_trans (a b c : string) :
  String.leb a b = true -> String.leb b c = true -> String.leb a c = true.
Proof.
  rewrite !leb_iff. intros [->|H1] [->|H2]; auto.
  right. eapply String_as_OT.lt_trans; eassumption.
Qed.

End StringOrder.

Section SortFacts.

Import visualize_lean_charts.

Context {A : Type} (key : A -> string).

Lemma insert_perm x l : Permutation (insert key x l) (x :: l).
Proof.
  induction l as [|y rest IH]; cbn [insert]; [reflexivity|].
  destruct (String.leb (key x) (key y)); [reflexivity|].
  rewrite IH. apply perm_swap.
Qed.

Lemma sort_perm l : Permutation (sort key l) l.
Proof.
  induction l as [|x rest IH]; cbn [sort]; [reflexivity|].
  rewrite insert_perm. now apply perm_skip.
Qed.

Lemma insert_Forall (P : A -> Prop) x l :
  P x -> Forall P l -> Forall P (insert key x l).
Proof.
  intros Hx Hl. eapply Permutation_Forall.
  - symmetry. apply insert_perm.
  - now constructor.
Qed.

Lemma insert_sorted x l :
  StronglySorted (key_le key) l -> StronglySorted (key_le key) (insert key x l).
Proof.
  induction 1 as [|y rest Hs IH Hy]; cbn [insert].
  - repeat constructor.
  - destruct (String.leb (key x) (key y)) eqn:E.
    + constructor; [now constructor|]. constructor; [exact E|].
      eapply Forall_impl; [|exact Hy]. intros z Hz. unfold key_le in *.
      eapply leb_trans; eassumption.
    + constructor; [exact IH|]. apply insert_Forall; [|exact Hy].
      now apply leb_false_flip.
Qed.

Lemma sort_sorted l : StronglySorted (key_le key) (sort key l).
Proof.
  induction l as [|x rest IH]; cbn [sort]; [constructor|]. now apply insert_sorted.
Qed.

(** Stability: the records of one key keep the order they came in. *)
Lemma insert_stable k x l :
  filter (has_key key k) (insert key x l) = filter (has_key key k) (x :: l).
Proof.
  induction l as [|y rest IH]; cbn [insert]; [reflexivity|].
  destruct (String.leb (key x) (key y)) eqn:E; [reflexivity|].
  cbn [filter] in *. rewrite IH. unfold has_key.
  destruct (String.eqb (key x) k) eqn:Ex; destruct (String.eqb (key y) k) eqn:Ey;
    try reflexivity.
  apply String.eqb_eq in Ex, Ey. rewrite Ex, Ey, leb_refl in E. discriminate.
Qed.

Lemma sort_stable k l : filter (has_key key k) (sort key l) = filter (has_key key k) l.
Proof.
  induction l as [|x rest IH]; cbn [sort]; [reflexivity|].
  rewrite insert_stable. cbn [filter]. now rewrite IH.
Qed.

Lemma sort_length l : length (sort key l) = length l.
Proof. apply Permutation_length, sort_perm. Qed.

Lemma filter_key_head a l :
  filter (has_key key (key a)) (a :: l) = a :: filter (has_key key (key a)) l.
Proof.
  cbn [filter]. unfold has_key at 1. now rewrite String.eqb_refl.
Qed.

Lemma in_of_filter k a l r :
  filter (has_key key k) l = a :: r -> In a l /\ key a = k.
Proof.
  intros H. assert (Hin : In a (filter (has_key key k) l)) by (rewrite H; now left).
  apply filter_In in Hin. destruct Hin as [Hin Hk]. split; [exact Hin|].
  now apply String.eqb_eq.
Qed.

(** Two sorted lists with the same records of every key, in the same
    order, are one list: the stable sorted arrangement is unique. *)
Lemma stable_sorted_unique l1 l2 :
  StronglySorted (key_le key) l1 -> StronglySorted (key_le key) l2 ->
  (forall k, filter (has_key key k) l1 = filter (has_key key k) l2) ->
  l1 = l2.
Proof.
  intros S1. revert l2. induction S1 as [|x r1 S1 IH Hx]; intros l2 S2 F.
  - destruct l2 as [|y r2]; [reflexivity|].
    specialize (F (key y)). rewrite filter_key_head in F. discriminate.
  - destruct l2 as [|y r2].
    { specialize (F (key x)). rewrite filter_key_head in F. discriminate. }
    inversion S2 as [|y' r2' S2' Hy]; subst.
    assert (Hxy : key x = key y).
    { apply String.leb_antisym.
      - assert (E := F (key y)). rewrite (filter_key_head y r2) in E.
        destruct (in_of_filter _ _ _ _ E) as [[<-|Hin] _]; [apply leb_refl|].
        rewrite Forall_forall in Hx. exact (Hx y Hin).
      - assert (E := F (key x)). rewrite (filter_key_head x r1) in E. symmetry in E.
        destruct (in_of_filter _ _ _ _ E) as [[<-|Hin] _]; [apply leb_refl|].
        rewrite Forall_forall in Hy. exact (Hy x Hin). }
    assert (E := F (key x)). rewrite (filter_key_head x r1) in E.
    rewrite Hxy in E. rewrite (filter_key_head y r2) in E. injection E as <- Etail.
    f_equal. apply IH; [exact S2'|]. intros k.
    specialize (F k). cbn [filter] in F.
    destruct (has_key key k x) eqn:Ek; [|exact F].
    now injection F.
Qed.

(** The sort returns that arrangement. *)
Lemma sort_is_the_stable_arrangement l l' :
  StronglySorted (key_le key) l' ->
  (forall k, filter (has_key key k) l' = filter (has_key key k) l) ->
  sort key l = l'.
Proof.
  intros S F. apply stable_sorted_unique; [apply sort_sorted|exact S|].
  intros k. now rewrite sort_stable, F.
Qed.

End SortFacts.

(** ** The series extractor *)

Section Extractor.

Import visualize_lean_charts.

Context {rt : PyRuntime}.

Lemma extract_xy_of_points (points : list json) :
  _extract_xy (series_of points) = Some (fold_left extract_item points ([], [])).
Proof.
  unfold _extract_xy, series_of. now destruct points.
Qed.

(** The loop never raises on a point: a list of points of any shape gives
    a result. *)
Lemma extract_xy_total (points : list json) :
  exists xs ys, _extract_xy (series_of points) = Some (xs, ys).
Proof.
  rewrite extract_xy_of_points.
  destruct (fold_left extract_item points ([], [])) as [xs ys]. now exists xs, ys.
Qed.

(** A point of neither shape, or whose timestamp [int()] refuses, adds
    nothing to either list. *)
Lemma extract_item_skipped acc item :
  unpack item = None \/
  (exists x_s y, unpack item = Some (x_s, y) /\ python_int x_s = None) ->
  extract_item acc item = acc.
Proof.
  destruct acc as [xs ys]. unfold extract_item.
  intros [->|(x_s & y & -> & ->)]; reflexivity.
Qed.

(** A point whose value [float()] refuses has its timestamp appended
    before the exception: the two lists part in length. *)
Lemma extract_item_refused_value xs ys item x_s y n :
  unpack item = Some (x_s, y) ->
  python_int x_s = Some n ->
  python_float y = None ->
  extract_item (xs, ys) item = (xs ++ [(n * 1000)%Z], ys).
Proof.
  intros Hu Hi Hf. unfold extract_item. now rewrite Hu, Hi, Hf.
Qed.

Lemma extract_item_accepted xs ys item x_s y n v :
  unpack item = Some (x_s, y) ->
  python_int x_s = Some n ->
  python_float y = Some v ->
  extract_item (xs, ys) item = (xs ++ [(n * 1000)%Z], ys ++ [v]).
Proof.
  intros Hu Hi Hf. unfold extract_item. now rewrite Hu, Hi, Hf.
Qed.

(** C2, the code at the failing input: the point [[1, null]] has a value
    that [float()] refuses, and yet its timestamp is in the result. *)
Theorem refused_value_leaves_its_timestamp :
  _extract_xy (series_of [JList [JInt 1; JNull]]) = Some ([1000%Z], []).
Proof.
  rewrite extract_xy_of_points. reflexivity.
Qed.

Lemma unpack_pair_form p : unpack (pair_form p) = Some p.
Proof. now destruct p. Qed.

Lemma unpack_object_form p : unpack (object_form p) = Some p.
Proof. now destruct p. Qed.

Lemma extract_item_forms acc p :
  extract_item acc (pair_form p) = extract_item acc (object_form p).
Proof.
  unfold extract_item. now rewrite unpack_pair_form, unpack_object_form.
Qed.

Lemma fold_extract_forms points acc :
  fold_left extract_item (map pair_form points) acc
  = fold_left extract_item (map object_form points) acc.
Proof.
  revert acc. induction points as [|p rest IH]; intros acc; [reflexivity|].
  cbn [map fold_left]. rewrite extract_item_forms. apply IH.
Qed.

(** C8: a series of points written as two-element arrays and the same
    points written as objects with the keys x and y extract to the same
    timestamps and the same values, in the same order; both extractions
    return. *)
Theorem pair_and_object_forms_extract_alike (points : list (json * json)) :
  _extract_xy (series_of (map pair_form points))
  = _extract_xy (series_of (map object_form points)) /\
  exists xs ys, _extract_xy (series_of (map pair_form points)) = Some (xs, ys).
Proof.
  split; [|apply extract_xy_total].
  rewrite !extract_xy_of_points. now rewrite fold_extract_forms.
Qed.

End Extractor.

(** The timestamps and the values part: the value 2.5 recorded at second 2
    is paired with the timestamp of the refused point. *)
Example refused_value_misaligns_the_series :
  visualize_lean_charts._extract_xy
    (visualize_lean_charts.series_of
       [ visualize_lean_charts.JList
           [visualize_lean_charts.JInt 1; visualize_lean_charts.JNull];
         visualize_lean_charts.JList
           [visualize_lean_charts.JInt 2; Exact.num (5 # 2)] ])
  = Some ([1000%Z; 2000%Z], [5 # 2]).
Proof. reflexivity. Qed.

(** ** The trade table *)

Section TradeTable.

Import visualize_lean_charts.

Context {rt : PyRuntime}.

Lemma classify_pairs sd points trades :
  classify sd points = Some trades -> Forall2 (made_from sd) points trades.
Proof.
  revert trades. induction points as [|[x y] rest IH]; intros trades; cbn [classify].
  - intros [= <-]. constructor.
  - destruct (_ms_to_utc_iso x) as [iso|] eqn:Ex; [|discriminate].
    destruct (classify sd rest) as [ts|]; [|discriminate].
    intros [= <-]. constructor; [|now apply IH]. now repeat split.
Qed.

Lemma classify_length sd points trades :
  classify sd points = Some trades -> length trades = length points.
Proof.
  intros H. symmetry. eapply Forall2_length. apply (classify_pairs _ _ _ H).
Qed.

Lemma classify_side sd points trades :
  classify sd points = Some trades -> Forall (fun t => side t = sd) trades.
Proof.
  intros H. apply classify_pairs in H.
  induction H as [|p t ps ts (_ & Hs & _) _ IH]; constructor; assumption.
Qed.

(** [classify] raises only where the calendar refuses a timestamp. *)
Lemma classify_returns sd points :
  (forall p, In p points -> _ms_to_utc_iso (fst p) <> None) ->
  exists trades, classify sd points = Some trades.
Proof.
  induction points as [|[x y] rest IH]; intros H; cbn [classify]; [now exists []|].
  destruct (_ms_to_utc_iso x) as [iso|] eqn:Ex.
  - destruct IH as [ts ->]; [intros p Hp; apply H; now right|]. now eexists.
  - exfalso. apply (H (x, y)); [now left|exact Ex].
Qed.

Lemma combine_min {X Y : Type} (xs : list X) (ys : list Y) :
  combine (firstn (Nat.min (length xs) (length ys)) xs)
          (firstn (Nat.min (length xs) (length ys)) ys)
  = combine xs ys.
Proof.
  revert ys. induction xs as [|x xs IH]; intros ys; [reflexivity|].
  destruct ys as [|y ys]; [reflexivity|]. cbn. now rewrite IH.
Qed.

Lemma length_combine_min {X Y : Type} (xs : list X) (ys : list Y) :
  length (combine xs ys) = Nat.min (length xs) (length ys).
Proof.
  revert ys. induction xs as [|x xs IH]; intros ys; [reflexivity|].
  destruct ys as [|y ys]; [reflexivity|]. cbn. now rewrite IH.
Qed.

Lemma in_combine_fst {X Y : Type} (xs : list X) (ys : list Y) p :
  In p (combine xs ys) ->
  In (fst p) (firstn (Nat.min (length xs) (length ys)) xs).
Proof.
  revert ys. induction xs as [|x xs IH]; intros ys; [contradiction|].
  destruct ys as [|y ys]; [contradiction|]. cbn.
  intros [<-|H]; [now left|right; now apply IH].
Qed.

(** The table, opened up. *)
Lemma build_trades_table_inv buy_x buy_y sell_x sell_y html trades :
  _build_trades_table buy_x buy_y sell_x sell_y = Some (html, trades) ->
  exists buys sells,
    classify "BUY" (combine buy_x buy_y) = Some buys /\
    classify "SELL" (combine sell_x sell_y) = Some sells /\
    trades = sort time_utc (buys ++ sells).
Proof.
  unfold _build_trades_table.
  destruct (classify "BUY" (combine buy_x buy_y)) as [buys|]; [|discriminate].
  destruct (classify "SELL" (combine sell_x sell_y)) as [sells|]; [|discriminate].
  intros [= _ <-]. now exists buys, sells.
Qed.

Lemma build_trades_table_returns buy_x buy_y sell_x sell_y buys sells :
  classify "BUY" (combine buy_x buy_y) = Some buys ->
  classify "SELL" (combine sell_x sell_y) = Some sells ->
  exists html,
    _build_trades_table buy_x buy_y sell_x sell_y
    = Some (html, sort time_utc (buys ++ sells)).
Proof.
  intros Hb Hs. unfold _build_trades_table. rewrite Hb, Hs. now eexists.
Qed.

(** In a list of buys followed by sells no sell stands before a buy. *)
Lemma no_sell_before_buy (buys sells before between after : list Trade) s b :
  Forall (fun t => side t = "BUY") buys ->
  Forall (fun t => side t = "SELL") sells ->
  buys ++ sells = before ++ s :: between ++ b :: after ->
  side s = "SELL" -> side b = "BUY" -> False.
Proof.
  intros Hb Hs. revert before. induction Hb as [|x buys Hx _ IH]; intros before E Ss Sb.
  - cbn in E. rewrite Forall_forall in Hs.
    assert (Hin : In b sells).
    { rewrite E. apply in_or_app. right. right. apply in_or_app. right. now left. }
    specialize (Hs b Hin). rewrite Sb in Hs. discriminate.
  - destruct before as [|y before]; cbn in E; injection E as E1 E2.
    + subst x. rewrite Ss in Hx. discriminate.
    + now apply (IH before).
Qed.

Lemma filter_split {X : Type} (p : X -> bool) before s between b after :
  p s = true -> p b = true ->
  filter p (before ++ s :: between ++ b :: after)
  = filter p before ++ s :: filter p between ++ b :: filter p after.
Proof.
  intros Hs Hb. rewrite filter_app. cbn [filter]. rewrite Hs.
  rewrite filter_app. cbn [filter]. now rewrite Hb.
Qed.

Lemma Forall_filter {X : Type} (P : X -> Prop) (p : X -> bool) l :
  Forall P l -> Forall P (filter p l).
Proof.
  induction 1 as [|x l Hx _ IH]; cbn [filter]; [constructor|].
  destruct (p x); [now constructor|exact IH].
Qed.

(** C6: the trades the table returns are in ascending order of their
    formatted timestamp; they are the buys followed by the sells, sorted
    stably (the trades of one timestamp stand in the order of that
    concatenation), so no sell stands before a buy of the same timestamp. *)
Theorem trades_are_sorted_stably buy_x buy_y sell_x sell_y html trades :
  _build_trades_table buy_x buy_y sell_x sell_y = Some (html, trades) ->
  StronglySorted (key_le time_utc) trades /\
  (exists buys sells,
     Forall2 (made_from "BUY") (combine buy_x buy_y) buys /\
     Forall2 (made_from "SELL") (combine sell_x sell_y) sells /\
     Permutation trades (buys ++ sells) /\
     forall k, filter (has_key time_utc k) trades
               = filter (has_key time_utc k) (buys ++ sells)) /\
  (forall before s between b after,
     trades = before ++ s :: between ++ b :: after ->
     side s = "SELL" -> side b = "BUY" -> time_utc s <> time_utc b).
Proof.
  intros H. destruct (build_trades_table_inv _ _ _ _ _ _ H) as (buys & sells & Hb & Hs & ->).
  split; [apply sort_sorted|]. split.
  - exists buys, sells. repeat split.
    + now apply classify_pairs.
    + now apply classify_pairs.
    + apply sort_perm.
    + intros k. apply sort_stable.
  - intros before s between b after E Ss Sb Heq.
    assert (F := sort_stable time_utc (time_utc b) (buys ++ sells)).
    rewrite E in F. rewrite filter_split in F.
    + rewrite filter_app in F. symmetry in F.
      eapply (no_sell_before_buy _ _ _ _ _ s b); [| |exact F|exact Ss|exact Sb].
      * apply Forall_filter. eapply classify_side; eassumption.
      * apply Forall_filter. eapply classify_side; eassumption.
    + unfold has_key. now apply String.eqb_eq.
    + unfold has_key. apply String.eqb_refl.
Qed.

(** C10: the table reads its four lists through [zip]: it is the table of
    the lists cut to the shorter of each pair.  When it returns, it holds
    one trade per zipped pair, the buys made of the pairs of [buy_x] and
    [buy_y] and the sells of those of [sell_x] and [sell_y]; and it returns
    whenever the calendar accepts every zipped timestamp, whatever the
    lengths. *)
Theorem trades_pair_positionally buy_x buy_y sell_x sell_y :
  let nb := Nat.min (length buy_x) (length buy_y) in
  let ns := Nat.min (length sell_x) (length sell_y) in
  _build_trades_table buy_x buy_y sell_x sell_y
  = _build_trades_table (firstn nb buy_x) (firstn nb buy_y)
                        (firstn ns sell_x) (firstn ns sell_y) /\
  (forall html trades,
     _build_trades_table buy_x buy_y sell_x sell_y = Some (html, trades) ->
     length trades = (nb + ns)%nat /\
     exists buys sells,
       Forall2 (made_from "BUY") (combine buy_x buy_y) buys /\
       Forall2 (made_from "SELL") (combine sell_x sell_y) sells /\
       Permutation trades (buys ++ sells)) /\
  ((forall x, In x (firstn nb buy_x ++ firstn ns sell_x) -> _ms_to_utc_iso x <> None) ->
   exists html trades,
     _build_trades_table buy_x buy_y sell_x sell_y = Some (html, trades) /\
     length trades = (nb + ns)%nat).
Proof.
  intros nb ns.
  assert (Hlen : forall html trades,
             _build_trades_table buy_x buy_y sell_x sell_y = Some (html, trades) ->
             length trades = (nb + ns)%nat /\
             exists buys sells,
               Forall2 (made_from "BUY") (combine buy_x buy_y) buys /\
               Forall2 (made_from "SELL") (combine sell_x sell_y) sells /\
               Permutation trades (buys ++ sells)).
  { intros html trades H.
    destruct (build_trades_table_inv _ _ _ _ _ _ H) as (buys & sells & Hb & Hs & ->).
    split.
    - rewrite sort_length, length_app.
      rewrite (classify_length _ _ _ Hb), (classify_length _ _ _ Hs).
      now rewrite !length_combine_min.
    - exists buys, sells. repeat split; try (now apply classify_pairs).
      apply sort_perm. }
  split; [|split].
  - unfold _build_trades_table, nb, ns. now rewrite !combine_min.
  - exact Hlen.
  - intros Hok.
    destruct (classify_returns "BUY" (combine buy_x buy_y)) as [buys Hb].
    { intros p Hp. apply Hok, in_or_app. left. now apply in_combine_fst. }
    destruct (classify_returns "SELL" (combine sell_x sell_y)) as [sells Hs].
    { intros p Hp. apply Hok, in_or_app. right. now apply in_combine_fst. }
    destruct (build_trades_table_returns _ _ _ _ _ _ Hb Hs) as [html H].
    exists html, (sort time_utc (buys ++ sells)). split; [exact H|].
    now apply (Hlen html).
Qed.

End TradeTable.

Lemma trades_are_sorted_stably_witness :
  StronglySorted (visualize_lean_charts.key_le visualize_lean_charts.time_utc)
    Samples.new_year_trades.
Proof.
  eapply (trades_are_sorted_stably (rt := Exact.runtime)
            [Samples.new_year_2020] [100] [Samples.new_year_2020] [101]
            _ Samples.new_year_trades).
  reflexivity.
Defined.

(** The scenario of a buy and a sell at 2020-01-01T00:00:00Z: the buy row
    comes first. *)
Example buy_row_precedes_sell_row_at_new_year :
  option_map snd
    (visualize_lean_charts._build_trades_table (rt := Exact.runtime)
       [Samples.new_year_2020] [100] [Samples.new_year_2020] [101])
  = Some Samples.new_year_trades.
Proof. reflexivity. Qed.

Lemma trades_pair_positionally_witness :
  exists html trades,
    visualize_lean_charts._build_trades_table (rt := Exact.runtime)
      [Samples.new_year_2020; 0%Z; 1000%Z] [100] [Samples.new_year_2020] [101; 102]
    = Some (html, trades)
    /\ length trades = 2%nat.
Proof.
  apply (trades_pair_positionally (rt := Exact.runtime)
           [Samples.new_year_2020; 0%Z; 1000%Z] [100] [Samples.new_year_2020] [101; 102]).
  intros x [<-|[<-|[]]]; discriminate.
Defined.

(** ** The command line *)

Section CommandLine.

Import visualize_lean_charts.

Context {rt : PyRuntime}.

Lemma sorted_keys_enumerate (names : list string) :
  Permutation (sort (fun k => k) names) names /\
  StronglySorted (key_le (fun k => k)) (sort (fun k => k) names).
Proof. split; [apply sort_perm|apply sort_sorted]. Qed.

Lemma main_missing_chart args fs result c charts :
  exists_ fs (resolve fs (input args)) = true ->
  json_load fs (resolve fs (input args)) = Some result ->
  get result "charts" = Some c ->
  py_or c (JDict []) = JDict charts ->
  lookup charts (chart args) = None ->
  main args fs
  = SystemExit ("Chart '" ++ chart args ++ "' not found. Available: "
                ++ join ", " (sort (fun k => k) (map fst charts))).
Proof.
  intros He Hl Hg Hc Hk. unfold main. cbv zeta.
  rewrite He. cbn [negb]. rewrite Hl. cbn [or_raise]. rewrite Hg. cbn [or_raise].
  rewrite Hc. cbn [get]. rewrite Hk. reflexivity.
Qed.

(** C9: [main] ends with status 1 and a message on a missing input file
    and on a chart name that is no key of the charts.  The message of a
    missing chart lists every key of the charts, sorted and separated by
    commas; where the result file is an object with no key "charts", it is
    the same message with an empty list. *)
Theorem main_reports_missing_input_and_chart args fs :
  (exists_ fs (resolve fs (input args)) = false ->
   main args fs = SystemExit ("Input json not found: " ++ resolve fs (input args)) /\
   exit_status (main args fs) <> 0%Z) /\
  (forall result c charts,
     exists_ fs (resolve fs (input args)) = true ->
     json_load fs (resolve fs (input args)) = Some result ->
     get result "charts" = Some c ->
     py_or c (JDict []) = JDict charts ->
     lookup charts (chart args) = None ->
     main args fs
     = SystemExit ("Chart '" ++ chart args ++ "' not found. Available: "
                   ++ join ", " (sort (fun k => k) (map fst charts))) /\
     exit_status (main args fs) <> 0%Z /\
     Permutation (sort (fun k => k) (map fst charts)) (map fst charts)) /\
  (forall items,
     exists_ fs (resolve fs (input args)) = true ->
     json_load fs (resolve fs (input args)) = Some (JDict items) ->
     lookup items "charts" = None ->
     main args fs
     = SystemExit ("Chart '" ++ chart args ++ "' not found. Available: ") /\
     exit_status (main args fs) <> 0%Z).
Proof.
  split; [|split].
  - intros He. assert (E : main args fs
      = SystemExit ("Input json not found: " ++ resolve fs (input args))).
    { unfold main. cbv zeta. now rewrite He. }
    rewrite E. split; [reflexivity|discriminate].
  - intros result c charts He Hl Hg Hc Hk.
    rewrite (main_missing_chart args fs result c charts He Hl Hg Hc Hk).
    repeat split; [discriminate|apply sort_perm].
  - intros items He Hl Hk.
    rewrite (main_missing_chart args fs (JDict items) JNull [] He Hl).
    + split; [reflexivity|discriminate].
    + cbn [get]. now rewrite Hk.
    + reflexivity.
    + reflexivity.
Qed.

End CommandLine.

Lemma main_reports_missing_input_and_chart_witness :
  visualize_lean_charts.main Samples.spy_args
    (Exact.one_file "backtest.json" Samples.two_charts)
  = visualize_lean_charts.SystemExit "Chart 'SPY' not found. Available: IWM, QQQ"
  /\ visualize_lean_charts.main Samples.spy_args
       (Exact.one_file "other.json" Samples.two_charts)
     = visualize_lean_charts.SystemExit "Input json not found: backtest.json"
  /\ visualize_lean_charts.main Samples.spy_args
       (Exact.one_file "backtest.json" (visualize_lean_charts.JDict []))
     = visualize_lean_charts.SystemExit "Chart 'SPY' not found. Available: ".
Proof.
  split; [|split].
  - refine (proj1 (proj1 (proj2 (main_reports_missing_input_and_chart (rt := Exact.runtime)
             Samples.spy_args (Exact.one_file "backtest.json" Samples.two_charts)))
             Samples.two_charts _ _ eq_refl eq_refl eq_refl eq_refl eq_refl)).
  - refine (proj1 (proj1 (main_reports_missing_input_and_chart (rt := Exact.runtime)
             Samples.spy_args (Exact.one_file "other.json" Samples.two_charts))
             eq_refl)).
  - refine (proj1 (proj2 (proj2 (main_reports_missing_input_and_chart (rt := Exact.runtime)
             Samples.spy_args
             (Exact.one_file "backtest.json" (visualize_lean_charts.JDict []))))
             [] eq_refl eq_refl eq_refl)).
Defined.

(** ** Further properties of the tool *)

Section Further.

Import visualize_lean_charts.

Context {rt : PyRuntime}.

(** X1: whatever the shapes and the contents of the points of a series,
    [_extract_xy] returns: no single point makes it raise. *)
Theorem extractor_returns_on_any_points (points : list json) :
  exists xs ys,
    _extract_xy (series_of points) = Some (xs, ys) /\
    (length ys <= length xs <= length points)%nat.
Proof.
  rewrite extract_xy_of_points.
  assert (G : forall acc,
             (length (snd acc) <= length (fst acc))%nat ->
             let r := fold_left extract_item points acc in
             (length (snd r) <= length (fst r)
              /\ length (fst r) <= length (fst acc) + length points)%nat).
  { induction points as [|item rest IH]; intros acc Hacc; cbn [fold_left length].
    - cbn zeta. lia.
    - assert (Hstep : (length (snd (extract_item acc item))
                       <= length (fst (extract_item acc item))
                       /\ length (fst (extract_item acc item)) <= length (fst acc) + 1)%nat).
      { destruct acc as [xs ys]. cbn [fst snd] in Hacc. unfold extract_item.
        destruct (unpack item) as [[x_s y]|]; cbn [fst snd]; [|lia].
        destruct (python_int x_s); cbn [fst snd]; [|lia].
        destruct (python_float y); cbn [fst snd]; rewrite ?length_app; cbn [length]; lia. }
      destruct Hstep as [H1 H2]. specialize (IH (extract_item acc item) H1).
      cbn zeta in *. lia. }
  specialize (G ([], []) (le_n 0)). cbn zeta in G. cbn [fst snd length] in G.
  destruct (fold_left extract_item points ([], [])) as [xs ys]. cbn [fst snd] in G.
  exists xs, ys. split; [reflexivity|lia].
Qed.

(** With no buy and no sell marker the table is the placeholder row and
    the list of trades is empty. *)
Example no_markers_give_the_placeholder :
  _build_trades_table [] [] [] [] = Some (no_trades_html, []).
Proof. reflexivity. Qed.

Lemma sort_of_sorted {A : Type} (key : A -> string) (l : list A) :
  StronglySorted (key_le key) l -> sort key l = l.
Proof.
  induction 1 as [|x rest Hs IH Hx]; [reflexivity|].
  cbn [sort]. rewrite IH. destruct rest as [|y rest']; [reflexivity|].
  cbn [insert]. inversion Hx as [|y' rest'' Hy _]; subst.
  unfold key_le in Hy. now rewrite Hy.
Qed.

(** X3: sorting the sorted trades again changes nothing. *)
Theorem sorting_twice_is_sorting_once (trades : list Trade) :
  sort time_utc (sort time_utc trades) = sort time_utc trades.
Proof. apply sort_of_sorted, sort_sorted. Qed.

End Further.

(** ** The detector over whole runs *)

Section DetectorRuns.

Import SimpleSmaCrossDemoAlgorithm.

(** X4: [on_data] writes no field but the stored flag, and the flag it
    leaves is [is_fast_above] when the call gets to the comparison and the
    flag it found otherwise; a flag once set is never unset. *)
Theorem on_data_writes_only_the_flag self data :
  is_warming_up (fst (on_data self data)) = is_warming_up self /\
  _ticker (fst (on_data self data)) = _ticker self /\
  _symbol (fst (on_data self data)) = _symbol self /\
  _fast_period (fst (on_data self data)) = _fast_period self /\
  _slow_period (fst (on_data self data)) = _slow_period self /\
  _fast (fst (on_data self data)) = _fast self /\
  _slow (fst (on_data self data)) = _slow self /\
  _was_fast_above (fst (on_data self data))
  = (if reaches_comparison self data then Some (is_fast_above_of self)
     else _was_fast_above self) /\
  (_was_fast_above self <> None -> _was_fast_above (fst (on_data self data)) <> None).
Proof.
  destruct (reaches_comparison self data) eqn:Hr.
  - destruct (on_data_compared self data Hr) as (bar & _ & ->). cbn [fst].
    repeat split; cbn; discriminate.
  - rewrite (on_data_skipped self data Hr). cbn [fst]. repeat split; trivial.
Qed.

Lemma filter_plots_of self bar orders :
  filter is_plot (plots_of self bar ++ orders) = plots_of self bar ++ filter is_plot orders.
Proof. reflexivity. Qed.

Lemma filter_orders_of self bar orders :
  filter is_order (plots_of self bar ++ orders) = filter is_order orders.
Proof. reflexivity. Qed.

(** X5: a call of [on_data] makes its three plots when it gets to the
    comparison and none otherwise, and it places an order exactly when the
    flag is set and [is_fast_above] differs from it: one [set_holdings] of
    the whole portfolio when the fast average has gone above, one
    [liquidate] when it no longer is; never more than one order. *)
Theorem on_data_orders_on_a_flip self data :
  filter is_plot (snd (on_data self data))
  = (if reaches_comparison self data then
       match getitem data (_symbol self) with
       | Some bar => plots_of self bar
       | None => []
       end
     else []) /\
  filter is_order (snd (on_data self data))
  = (if reaches_comparison self data then
       match _was_fast_above self with
       | Some was =>
           if Bool.eqb (is_fast_above_of self) was then []
           else [ if is_fast_above_of self then set_holdings (_symbol self) 1
                  else liquidate (_symbol self) ]
       | None => []
       end
     else []) /\
  (length (filter is_order (snd (on_data self data))) <= 1)%nat.
Proof.
  destruct (reaches_comparison self data) eqn:Hr.
  - destruct (on_data_compared self data Hr) as (bar & Hb & ->). cbn [snd].
    rewrite Hb. destruct (_was_fast_above self) as [was|].
    + rewrite filter_plots_of, filter_orders_of.
      destruct (is_fast_above_of self), was; cbn; repeat split; lia.
    + cbn. repeat split; lia.
  - rewrite (on_data_skipped self data Hr). cbn. repeat split; lia.
Qed.

(** One step of a run is one step of the machine on the flag. *)
Lemma deliver_detect self s :
  _was_fast_above (fst (deliver self s))
  = fst (detect (_was_fast_above self) (observe self s)) /\
  snd (deliver self s) = snd (detect (_was_fast_above self) (observe self s)) /\
  _symbol (fst (deliver self s)) = _symbol self.
Proof.
  unfold observe. destruct (compares self s) eqn:Hc.
  - destruct (_was_fast_above self) as [was|] eqn:Hw.
    + rewrite (deliver_compared_eq self s was Hc Hw). now repeat split.
    + rewrite (deliver_unset self s Hc Hw). now repeat split.
  - rewrite (deliver_skipped self s Hc). now repeat split.
Qed.

Lemma observe_same_symbol self self1 s :
  _symbol self1 = _symbol self -> observe self1 s = observe self s.
Proof.
  intros H. unfold observe. now rewrite (compares_same_symbol self self1 s H).
Qed.

Lemma run_detector_from self0 self steps :
  _symbol self0 = _symbol self ->
  snd (run self0 steps)
  = snd (detector (_was_fast_above self0) (map (observe self) steps)) /\
  _was_fast_above (fst (run self0 steps))
  = fst (detector (_was_fast_above self0) (map (observe self) steps)) /\
  _symbol (fst (run self0 steps)) = _symbol self.
Proof.
  revert self0. induction steps as [|s rest IH]; intros self0 Hsym; [now repeat split|].
  cbn [run map detector].
  destruct (deliver_detect self0 s) as (Hf & He & Hs).
  rewrite (observe_same_symbol self self0 s Hsym) in Hf, He.
  destruct (deliver self0 s) as [self1 e]. cbn [fst snd] in *.
  destruct (detect (_was_fast_above self0) (observe self s)) as [flag1 e1].
  cbn [fst snd] in *. subst e1 flag1.
  specialize (IH self1 (eq_trans Hs Hsym)).
  destruct (run self1 rest) as [self2 es].
  destruct (detector (_was_fast_above self1) (map (observe self) rest)) as [flag2 es2].
  cbn [fst snd] in *. destruct IH as (-> & -> & ->). now repeat split.
Qed.

Lemma run_detector self steps :
  snd (run self steps)
  = snd (detector (_was_fast_above self) (map (observe self) steps)) /\
  _was_fast_above (fst (run self steps))
  = fst (detector (_was_fast_above self) (map (observe self) steps)).
Proof.
  destruct (run_detector_from self self steps eq_refl) as (H1 & H2 & _). now split.
Qed.

(** X6: a run of [on_data] is the run of a machine on the stored flag: its
    signals and the flag it ends with are those of [detector], fed with what
    each step shows (its [is_fast_above], or nothing when a guard sends the
    call back); no other field and no other input of a step has a part. *)
Theorem run_is_the_flag_machine self steps :
  snd (run self steps)
  = snd (detector (_was_fast_above self) (map (observe self) steps)) /\
  _was_fast_above (fst (run self steps))
  = fst (detector (_was_fast_above self) (map (observe self) steps)).
Proof. apply run_detector. Qed.

Lemma detector_alternates obs was :
  alternates_from was (trades_only (snd (detector (Some was) obs))).
Proof.
  revert was. induction obs as [|o rest IH]; intros was; [exact I|].
  cbn [detector]. destruct o as [now|]; cbn [detect].
  - specialize (IH now).
    destruct (detector (Some now) rest) as [flag2 es]. cbn [snd] in *.
    destruct was, now; cbn; auto.
  - specialize (IH was).
    destruct (detector (Some was) rest) as [flag2 es]. cbn [snd] in *. exact IH.
Qed.

Lemma detector_alternates_unset obs :
  exists invested, alternates_from invested (trades_only (snd (detector None obs))).
Proof.
  induction obs as [|o rest IH]; [now exists false|].
  cbn [detector]. destruct o as [now|]; cbn [detect].
  - exists now. assert (H := detector_alternates rest now).
    destruct (detector (Some now) rest) as [flag2 es]. exact H.
  - destruct IH as [b H]. exists b.
    destruct (detector None rest) as [flag2 es]. exact H.
Qed.

(** X7: over any run, whatever the steps, the orders alternate: an Enter
    is followed by an Exit and an Exit by an Enter, never two of one kind in
    a row; with the flag set, the first order is an Exit when the flag is
    true and an Enter when it is false. *)
Theorem orders_alternate self steps :
  exists invested,
    (forall was, _was_fast_above self = Some was -> invested = was) /\
    alternates_from invested (trades_only (snd (run self steps))).
Proof.
  destruct (run_detector self steps) as [-> _].
  destruct (_was_fast_above self) as [was|].
  - exists was. split; [now intros ? [= ->]|]. apply detector_alternates.
  - destruct (detector_alternates_unset (map (observe self) steps)) as [b H].
    exists b. split; [discriminate|exact H].
Qed.

Lemma detector_balance obs was :
  exists final,
    fst (detector (Some was) obs) = Some final /\
    (count_signal Enter (snd (detector (Some was) obs)) + Nat.b2n was
     = count_signal Exit (snd (detector (Some was) obs)) + Nat.b2n final)%nat.
Proof.
  revert was. induction obs as [|o rest IH]; intros was.
  - exists was. now split.
  - cbn [detector]. destruct o as [now|]; cbn [detect].
    + destruct (IH now) as (final & Hf & Hc). exists final.
      destruct (detector (Some now) rest) as [flag2 es]. cbn [fst snd] in *.
      split; [exact Hf|]. unfold count_signal in *.
      destruct was, now; cbn in *; lia.
    + destruct (IH was) as (final & Hf & Hc). exists final.
      destruct (detector (Some was) rest) as [flag2 es]. cbn [fst snd] in *.
      split; [exact Hf|]. unfold count_signal in *. cbn. exact Hc.
Qed.

(** X8: the stored flag keeps the account of the orders: over any run made
    with the flag set, the flag stays set, and the Enters exceed the Exits
    by one when the flag went from false to true, fall short by one when it
    went from true to false, and equal them when it ends as it began. *)
Theorem flag_keeps_account_of_orders self steps was :
  _was_fast_above self = Some was ->
  exists final,
    _was_fast_above (fst (run self steps)) = Some final /\
    (count_signal Enter (snd (run self steps)) + Nat.b2n was
     = count_signal Exit (snd (run self steps)) + Nat.b2n final)%nat.
Proof.
  intros Hw. destruct (run_detector self steps) as [-> ->].
  rewrite Hw. apply detector_balance.
Qed.

Lemma flag_keeps_account_of_orders_witness :
  exists final,
    _was_fast_above
      (fst (run (Samples.running false 1 2 (Some false))
              [Samples.ready_step 3 2; Samples.unready_step false;
               Samples.ready_step 2 2; Samples.ready_step 5 2]))
    = Some final /\
    (count_signal Enter
       (snd (run (Samples.running false 1 2 (Some false))
               [Samples.ready_step 3 2; Samples.unready_step false;
                Samples.ready_step 2 2; Samples.ready_step 5 2]))
     + Nat.b2n false
     = count_signal Exit
         (snd (run (Samples.running false 1 2 (Some false))
                 [Samples.ready_step 3 2; Samples.unready_step false;
                  Samples.ready_step 2 2; Samples.ready_step 5 2]))
       + Nat.b2n final)%nat.
Proof.
  apply (flag_keeps_account_of_orders (Samples.running false 1 2 (Some false))
           [Samples.ready_step 3 2; Samples.unready_step false;
            Samples.ready_step 2 2; Samples.ready_step 5 2] false).
  reflexivity.
Defined.

Lemma detector_skips flag obs :
  fst (detector flag obs) = fst (detector flag (filter is_seen obs)) /\
  trades_only (snd (detector flag obs))
  = trades_only (snd (detector flag (filter is_seen obs))).
Proof.
  revert flag. induction obs as [|o rest IH]; intros flag; [now split|].
  destruct o as [now|]; cbn [filter is_seen detector].
  - destruct (detect flag (Some now)) as [flag1 e]. specialize (IH flag1).
    destruct (detector flag1 rest) as [f2 es].
    destruct (detector flag1 (filter is_seen rest)) as [f3 es3].
    cbn [fst snd] in *. destruct IH as [-> IH]. split; [reflexivity|].
    unfold trades_only in *. cbn [filter]. now rewrite IH.
  - cbn [detect]. specialize (IH flag).
    destruct (detector flag rest) as [f2 es]. cbn [fst snd] in *. exact IH.
Qed.

Lemma observe_filter self steps :
  map (observe self) (filter (compares self) steps)
  = filter is_seen (map (observe self) steps).
Proof.
  induction steps as [|s rest IH]; [reflexivity|].
  cbn [filter map]. destruct (compares self s) eqn:Hc.
  - assert (E : observe self s = Some (step_is_fast_above s))
      by (unfold observe; now rewrite Hc).
    cbn [map]. rewrite E. cbn [filter is_seen]. now rewrite IH.
  - assert (E : observe self s = None) by (unfold observe; now rewrite Hc).
    rewrite E. cbn [filter is_seen]. exact IH.
Qed.

(** X9: the steps a guard sends back (warm-up, an average not ready, no bar
    in the slice) leave no trace: the orders of a run and the flag it ends
    with are those of the run over the other steps alone. *)
Theorem guarded_steps_leave_no_trace self steps :
  trades_only (snd (run self steps))
  = trades_only (snd (run self (filter (compares self) steps))) /\
  _was_fast_above (fst (run self steps))
  = _was_fast_above (fst (run self (filter (compares self) steps))).
Proof.
  destruct (run_detector self steps) as [-> ->].
  destruct (run_detector self (filter (compares self) steps)) as [-> ->].
  rewrite observe_filter.
  destruct (detector_skips (_was_fast_above self) (map (observe self) steps)) as [H1 H2].
  now split.
Qed.

Lemma on_order_event_cases self order_event :
  on_order_event self order_event
  = (self,
     if is_filled (status order_event) then
       match Qcompare (fill_quantity order_event) 0 with
       | Gt => [plot (_ticker self) "Buy" (fill_price order_event)]
       | Lt => [plot (_ticker self) "Sell" (fill_price order_event)]
       | Eq => []
       end
     else []).
Proof.
  unfold on_order_event, Qgtb, Qltb.
  destruct (is_filled (status order_event)); [|reflexivity].
  now destruct (Qcompare (fill_quantity order_event) 0).
Qed.

Lemma is_filled_iff s : is_filled s = true <-> s = FILLED.
Proof. destruct s; split; (reflexivity || discriminate). Qed.

(** X10: [on_order_event] never changes the object and never places an
    order; it plots a marker exactly when the event is FILLED with a
    quantity other than zero, and then one marker, at the fill price, Buy
    for a positive quantity and Sell for a negative one. *)
Theorem marker_iff_filled_and_nonzero self order_event :
  fst (on_order_event self order_event) = self /\
  filter is_order (snd (on_order_event self order_event)) = [] /\
  (markers (snd (on_order_event self order_event)) = [] <->
   status order_event <> FILLED \/ (fill_quantity order_event == 0)%Q) /\
  (forall m, In m (markers (snd (on_order_event self order_event))) ->
     markers (snd (on_order_event self order_event)) = [m] /\
     snd m = fill_price order_event /\
     (fst m = BUY <-> (0 < fill_quantity order_event)%Q) /\
     (fst m = SELL <-> (fill_quantity order_event < 0)%Q)).
Proof.
  rewrite on_order_event_cases. cbn [fst snd].
  assert (Hgt := Qgtb_true_iff (fill_quantity order_event) 0).
  assert (Hlt := Qltb_true_iff (fill_quantity order_event) 0).
  assert (Heq := Qeq_alt (fill_quantity order_event) 0).
  unfold Qgtb, Qltb in Hgt, Hlt.
  assert (Hf := is_filled_iff (status order_event)).
  destruct (is_filled (status order_event)).
  - assert (Hs : status order_event = FILLED) by now apply Hf.
    destruct (Qcompare (fill_quantity order_event) 0) eqn:E.
    + split; [reflexivity|]. split; [reflexivity|]. split.
      * split; [intros _; right; now apply Heq|reflexivity].
      * intros m [].
    + split; [reflexivity|]. split; [reflexivity|]. split.
      * split; [discriminate|]. intros [H|H]; [contradiction|].
        apply Heq in H. discriminate.
      * intros m [<-|[]]. split; [reflexivity|]. split; [reflexivity|]. split.
        -- split; [discriminate|]. intros H. apply Hgt in H. discriminate.
        -- split; [intros _; now apply Hlt|reflexivity].
    + split; [reflexivity|]. split; [reflexivity|]. split.
      * split; [discriminate|]. intros [H|H]; [contradiction|].
        apply Heq in H. discriminate.
      * intros m [<-|[]]. split; [reflexivity|]. split; [reflexivity|]. split.
        -- split; [intros _; now apply Hgt|reflexivity].
        -- split; [discriminate|]. intros H. apply Hlt in H. discriminate.
  - split; [reflexivity|]. split; [reflexivity|]. split.
    + split; [|reflexivity]. intros _. left. intros H. apply Hf in H. discriminate.
    + intros m [].
Qed.

End DetectorRuns.

(** ** The series extractor, point by point *)

Section ExtractorPoints.

Import visualize_lean_charts.

Context {rt : PyRuntime}.

Lemma extract_item_adds acc item :
  extract_item acc item
  = (fst acc ++ somes [timestamp_of item], snd acc ++ somes [value_of item]).
Proof.
  destruct acc as [xs ys]. unfold extract_item, timestamp_of, value_of. cbn [fst snd].
  destruct (unpack item) as [[x_s y]|]; cbn [somes]; [|now rewrite !app_nil_r].
  destruct (python_int x_s); cbn [somes]; [|now rewrite !app_nil_r].
  destruct (python_float y); cbn [somes]; now rewrite ?app_nil_r.
Qed.

Lemma somes_app {A : Type} (l1 l2 : list (option A)) :
  somes (l1 ++ l2) = somes l1 ++ somes l2.
Proof.
  induction l1 as [|[a|] rest IH]; cbn; [reflexivity| |exact IH]. now rewrite IH.
Qed.

Lemma fold_extract_adds items acc :
  fold_left extract_item items acc
  = (fst acc ++ somes (map timestamp_of items), snd acc ++ somes (map value_of items)).
Proof.
  revert acc. induction items as [|item rest IH]; intros acc.
  - cbn. rewrite !app_nil_r. now destruct acc.
  - cbn [fold_left map]. rewrite IH, extract_item_adds. cbn [fst snd].
    rewrite <- !app_assoc.
    change (timestamp_of item :: map timestamp_of rest)
      with ([timestamp_of item] ++ map timestamp_of rest).
    change (value_of item :: map value_of rest)
      with ([value_of item] ++ map value_of rest).
    now rewrite !somes_app.
Qed.

Lemma somes_timestamps_scaled items :
  Forall (fun x => exists n, x = (n * 1000)%Z) (somes (map timestamp_of items)).
Proof.
  induction items as [|item rest IH]; cbn [map somes]; [constructor|].
  unfold timestamp_of at 1. destruct (unpack item) as [[x_s y]|]; [|exact IH].
  destruct (python_int x_s) as [n|]; [|exact IH]. constructor; [now exists n|exact IH].
Qed.

(** X11: the two lists [_extract_xy] returns are two comprehensions over
    the points, in the order of the input: the timestamps are [int(x) *
    1000] of every point of an accepted shape whose [x] converts, and the
    values are [float(y)] of those of them whose [y] converts too.  So
    every timestamp is a multiple of 1000, and a value never comes without
    the timestamp of its point. *)
Theorem extraction_is_two_comprehensions (points : list json) :
  _extract_xy (series_of points)
  = Some (somes (map timestamp_of points), somes (map value_of points)) /\
  Forall (fun x => exists n, x = (n * 1000)%Z) (somes (map timestamp_of points)) /\
  (forall item, value_of item <> None -> timestamp_of item <> None).
Proof.
  split; [|split].
  - rewrite extract_xy_of_points. now rewrite fold_extract_adds.
  - apply somes_timestamps_scaled.
  - intros item. unfold value_of, timestamp_of.
    destruct (unpack item) as [[x_s y]|]; [|congruence].
    destruct (python_int x_s); congruence.
Qed.

(** X12: extraction goes through concatenation: the lists extracted from
    two series of points put end to end are the lists of the first followed
    by the lists of the second. *)
Theorem extraction_of_concatenated_points (ps qs : list json) :
  exists xs1 ys1 xs2 ys2,
    _extract_xy (series_of ps) = Some (xs1, ys1) /\
    _extract_xy (series_of qs) = Some (xs2, ys2) /\
    _extract_xy (series_of (ps ++ qs)) = Some (xs1 ++ xs2, ys1 ++ ys2).
Proof.
  exists (somes (map timestamp_of ps)), (somes (map value_of ps)),
         (somes (map timestamp_of qs)), (somes (map value_of qs)).
  rewrite !extract_xy_of_points, !fold_extract_adds. cbn [fst snd app].
  now rewrite !map_app, !somes_app.
Qed.

Lemma unpack_none_iff item : unpack item = None <-> is_point item = false.
Proof.
  unfold unpack, is_point, contains.
  destruct item as [| | | | |items|kvs]; try (split; reflexivity).
  - destruct items as [|a [|b [|c rest]]]; split; (reflexivity || discriminate).
  - destruct (lookup kvs "x"), (lookup kvs "y"); cbn; split;
      (reflexivity || discriminate).
Qed.

Lemma somes_map_filter {A : Type} (f : json -> option A) items :
  (forall item, is_point item = false -> f item = None) ->
  somes (map f (filter is_point items)) = somes (map f items).
Proof.
  intros H. induction items as [|item rest IH]; [reflexivity|].
  cbn [filter]. destruct (is_point item) eqn:E; cbn [map somes].
  - destruct (f item); now rewrite IH.
  - now rewrite (H item E).
Qed.

(** X13: a point of another shape (a scalar, a string, null, an array that
    has not exactly two elements, an object that lacks the key x or the key
    y) has no part in the result: the series without those points extracts
    to the same lists. *)
Theorem other_shapes_are_ignored (points : list json) :
  _extract_xy (series_of (filter is_point points)) = _extract_xy (series_of points).
Proof.
  rewrite !extract_xy_of_points, !fold_extract_adds. cbn [fst snd app].
  rewrite !somes_map_filter; [reflexivity| |].
  - intros item H. apply unpack_none_iff in H. unfold value_of. now rewrite H.
  - intros item H. apply unpack_none_iff in H. unfold timestamp_of. now rewrite H.
Qed.

Lemma unpack_object_of o p : object_of o p -> unpack o = Some p.
Proof.
  intros (kvs & -> & Hx & Hy). unfold unpack, contains. rewrite Hx, Hy. cbn.
  now destruct p.
Qed.

(** X14: the order of the keys of a point written as an object and the
    other keys it may have do not matter: objects that map x and y to
    [t] and [v] extract like the arrays [[t, v]]. *)
Theorem objects_extract_like_pairs (objects : list json) (pairs : list (json * json)) :
  Forall2 object_of objects pairs ->
  _extract_xy (series_of objects) = _extract_xy (series_of (map pair_form pairs)).
Proof.
  intros H. rewrite !extract_xy_of_points.
  generalize (@nil Z, @nil float).
  induction H as [|o p os ps Ho _ IH]; intros acc; [reflexivity|].
  cbn [map fold_left].
  assert (E : extract_item acc o = extract_item acc (pair_form p)).
  { unfold extract_item. now rewrite (unpack_object_of o p Ho), unpack_pair_form. }
  rewrite E. apply IH.
Qed.

Lemma extract_item_of_str acc s : extract_item acc (JStr s) = acc.
Proof. now destruct acc. Qed.

Lemma fold_extract_strs (strs : list string) acc :
  fold_left extract_item (map JStr strs) acc = acc.
Proof.
  revert acc. induction strs as [|s rest IH]; intros acc; [reflexivity|].
  cbn [map fold_left]. rewrite extract_item_of_str. apply IH.
Qed.

Lemma chars_are_strs s : exists strs, chars s = map JStr strs.
Proof.
  induction s as [|c rest [strs IH]]; [now exists []|].
  exists (String c EmptyString :: strs). cbn. now rewrite IH.
Qed.

(** X15: a series object with no points extracts to two empty lists: when
    it has no key "values", when the value is falsy (null, false, 0, an
    empty string, list or object), and also when the value is a string or an
    object, whose items (characters, keys) are no points. *)
Theorem series_without_points_is_empty (items : list (string * json)) :
  match lookup items "values" with
  | None => True
  | Some v => truthy v = false \/ (exists s, v = JStr s) \/ (exists kvs, v = JDict kvs)
  end ->
  _extract_xy (JDict items) = Some ([], []).
Proof.
  unfold _extract_xy, get, py_or.
  destruct (lookup items "values") as [v|]; [|reflexivity].
  intros [H|[[s ->]|[kvs ->]]].
  - now rewrite H.
  - destruct (truthy (JStr s)); [|reflexivity]. cbn [iter].
    destruct (chars_are_strs s) as [strs ->]. now rewrite fold_extract_strs.
  - destruct (truthy (JDict kvs)); [|reflexivity]. cbn [iter].
    rewrite <- (map_map fst JStr). now rewrite fold_extract_strs.
Qed.

(** X16: [_extract_xy] raises in two cases only: its argument is no object
    (it has no [get]), or the value of "values" is a number or a boolean
    that is truthy (a [for] loop cannot run over it). *)
Theorem extract_xy_raises_iff (series : json) :
  _extract_xy series = None <->
  is_dict series = false \/
  exists items v,
    series = JDict items /\ lookup items "values" = Some v /\
    truthy v = true /\ is_scalar v = true.
Proof.
  split.
  - destruct series as [| | | | | |items]; try (intros _; now left).
    intros H. right. unfold _extract_xy, get, py_or in H.
    destruct (lookup items "values") as [v|] eqn:Hv; [|discriminate].
    exists items, v. destruct (truthy v) eqn:Ht; [|discriminate].
    destruct v; cbn in H; try discriminate; now repeat split.
  - intros [H|(items & v & -> & Hv & Ht & Hs)].
    + destruct series; try reflexivity. discriminate.
    + unfold _extract_xy, get, py_or. rewrite Hv, Ht.
      destruct v; try discriminate; reflexivity.
Qed.

End ExtractorPoints.

Lemma objects_extract_like_pairs_witness :
  visualize_lean_charts._extract_xy
    (visualize_lean_charts.series_of
       [ visualize_lean_charts.JDict
           [ ("y", Exact.num (5 # 2)); ("note", visualize_lean_charts.JNull);
             ("x", visualize_lean_charts.JInt 7) ] ])
  = Some ([7000%Z], [5 # 2]).
Proof.
  rewrite (objects_extract_like_pairs (rt := Exact.runtime) _
             [(visualize_lean_charts.JInt 7, Exact.num (5 # 2))]).
  - reflexivity.
  - repeat constructor. eexists. repeat split; reflexivity.
Defined.

Lemma series_without_points_is_empty_witness :
  visualize_lean_charts._extract_xy (rt := Exact.runtime)
    (visualize_lean_charts.JDict [("unit", visualize_lean_charts.JStr "$")])
  = Some ([], [])
  /\ visualize_lean_charts._extract_xy (rt := Exact.runtime)
       (visualize_lean_charts.JDict [("values", visualize_lean_charts.JStr "12")])
     = Some ([], []).
Proof.
  split.
  - apply (series_without_points_is_empty (rt := Exact.runtime)
             [("unit", visualize_lean_charts.JStr "$")]).
    exact I.
  - apply (series_without_points_is_empty (rt := Exact.runtime)
             [("values", visualize_lean_charts.JStr "12")]).
    right. left. now exists "12".
Defined.

(** ** The trade table, further *)

Section TradeTableMore.

Import visualize_lean_charts.

Context {rt : PyRuntime}.

Lemma classify_raises_iff sd points :
  classify sd points = None <->
  exists p, In p points /\ _ms_to_utc_iso (fst p) = None.
Proof.
  induction points as [|[x y] rest IH]; cbn [classify].
  - split; [discriminate|]. now intros (p & [] & _).
  - destruct (_ms_to_utc_iso x) as [iso|] eqn:Ex.
    + destruct (classify sd rest) as [ts|].
      * split; [discriminate|]. intros (p & [<-|Hp] & Hn).
        -- cbn in Hn. congruence.
        -- assert (H : Some ts = None) by (apply IH; now exists p).
           discriminate.
      * split; [|reflexivity]. intros _.
        destruct (proj1 IH eq_refl) as (p & Hp & Hn). exists p. split; [now right|exact Hn].
    + split; [|reflexivity]. intros _. exists (x, y). split; [now left|exact Ex].
Qed.

Lemma in_firstn_combine {X Y : Type} (xs : list X) (ys : list Y) x :
  In x (firstn (Nat.min (length xs) (length ys)) xs) ->
  exists p, In p (combine xs ys) /\ fst p = x.
Proof.
  revert ys. induction xs as [|a xs IH]; intros ys; [contradiction|].
  destruct ys as [|b ys]; [contradiction|]. cbn.
  intros [<-|H]; [exists (a, b); split; [now left|reflexivity]|].
  destruct (IH ys H) as (p & Hp & <-). exists p. split; [now right|reflexivity].
Qed.

(** X17: [_build_trades_table] raises exactly when the calendar refuses
    one of the timestamps that [zip] pairs with a price; a timestamp beyond
    the length of its price list is never looked at. *)
Theorem table_raises_iff_a_paired_timestamp_is_refused buy_x buy_y sell_x sell_y :
  _build_trades_table buy_x buy_y sell_x sell_y = None <->
  exists x,
    In x (firstn (Nat.min (length buy_x) (length buy_y)) buy_x
          ++ firstn (Nat.min (length sell_x) (length sell_y)) sell_x) /\
    _ms_to_utc_iso x = None.
Proof.
  unfold _build_trades_table. split.
  - destruct (classify "BUY" (combine buy_x buy_y)) as [buys|] eqn:Hb.
    + destruct (classify "SELL" (combine sell_x sell_y)) as [sells|] eqn:Hs;
        [discriminate|]. intros _.
      apply classify_raises_iff in Hs. destruct Hs as (p & Hp & Hn).
      exists (fst p). split; [|exact Hn]. apply in_or_app. right.
      now apply in_combine_fst.
    + intros _. apply classify_raises_iff in Hb. destruct Hb as (p & Hp & Hn).
      exists (fst p). split; [|exact Hn]. apply in_or_app. left.
      now apply in_combine_fst.
  - intros (x & Hin & Hn). apply in_app_or in Hin. destruct Hin as [Hin|Hin].
    + destruct (in_firstn_combine buy_x buy_y x Hin) as (p & Hp & <-).
      assert (E : classify "BUY" (combine buy_x buy_y) = None)
        by (apply classify_raises_iff; now exists p).
      now rewrite E.
    + destruct (in_firstn_combine sell_x sell_y x Hin) as (p & Hp & <-).
      assert (E : classify "SELL" (combine sell_x sell_y) = None)
        by (apply classify_raises_iff; now exists p).
      rewrite E. now destruct (classify "BUY" (combine buy_x buy_y)).
Qed.

Lemma classify_prices sd points trades :
  classify sd points = Some trades -> map price trades = map snd points.
Proof.
  intros H. apply classify_pairs in H.
  induction H as [|p t ps ts (_ & _ & Hp) _ IH]; [reflexivity|].
  cbn [map]. now rewrite Hp, IH.
Qed.

Lemma map_snd_combine {X Y : Type} (xs : list X) (ys : list Y) :
  map snd (combine xs ys) = firstn (Nat.min (length xs) (length ys)) ys.
Proof.
  revert ys. induction xs as [|a xs IH]; intros ys; [reflexivity|].
  destruct ys as [|b ys]; [reflexivity|]. cbn. now rewrite IH.
Qed.

Lemma filter_side_all sd trades :
  Forall (fun t => side t = sd) trades -> filter (has_side sd) trades = trades.
Proof.
  induction 1 as [|t rest Ht _ IH]; [reflexivity|].
  cbn [filter]. unfold has_side at 1. rewrite Ht, String.eqb_refl. now rewrite IH.
Qed.

Lemma filter_side_none sd sd' trades :
  sd' <> sd -> Forall (fun t => side t = sd') trades -> filter (has_side sd) trades = [].
Proof.
  intros Hne. induction 1 as [|t rest Ht _ IH]; [reflexivity|].
  cbn [filter]. unfold has_side at 1. rewrite Ht.
  destruct (String.eqb sd' sd) eqn:E; [apply String.eqb_eq in E; contradiction|exact IH].
Qed.

Lemma filter_length_perm {X : Type} (f : X -> bool) (l l' : list X) :
  Permutation l l' -> length (filter f l) = length (filter f l').
Proof.
  induction 1 as [|x l l' _ IH|x y l|l l' l'' _ IH1 _ IH2]; cbn [filter].
  - reflexivity.
  - destruct (f x); cbn [length]; now rewrite IH.
  - destruct (f x), (f y); reflexivity.
  - now rewrite IH1.
Qed.

(** X18: the trades of the table keep what went in: every trade is a BUY
    or a SELL, there are as many BUY trades as zipped buy pairs and as many
    SELL trades as zipped sell pairs, and their prices are the zipped buy
    and sell prices, each as often as it came. *)
Theorem table_keeps_sides_and_prices buy_x buy_y sell_x sell_y html trades :
  _build_trades_table buy_x buy_y sell_x sell_y = Some (html, trades) ->
  Forall (fun t => side t = "BUY" \/ side t = "SELL") trades /\
  length (filter (has_side "BUY") trades) = Nat.min (length buy_x) (length buy_y) /\
  length (filter (has_side "SELL") trades) = Nat.min (length sell_x) (length sell_y) /\
  Permutation (map price trades)
    (firstn (Nat.min (length buy_x) (length buy_y)) buy_y
     ++ firstn (Nat.min (length sell_x) (length sell_y)) sell_y).
Proof.
  intros H. destruct (build_trades_table_inv _ _ _ _ _ _ H) as (buys & sells & Hb & Hs & ->).
  assert (Sb := classify_side _ _ _ Hb). assert (Ss := classify_side _ _ _ Hs).
  assert (P := sort_perm time_utc (buys ++ sells)).
  split; [|split; [|split]].
  - eapply Permutation_Forall; [symmetry; exact P|]. apply Forall_app. split.
    + eapply Forall_impl; [|exact Sb]. intros t Ht. now left.
    + eapply Forall_impl; [|exact Ss]. intros t Ht. now right.
  - rewrite (filter_length_perm _ _ _ P), filter_app, length_app.
    rewrite (filter_side_all "BUY" buys Sb).
    rewrite (filter_side_none "BUY" "SELL" sells); [|discriminate|exact Ss].
    cbn [length]. rewrite (classify_length _ _ _ Hb), length_combine_min. lia.
  - rewrite (filter_length_perm _ _ _ P), filter_app, length_app.
    rewrite (filter_side_all "SELL" sells Ss).
    rewrite (filter_side_none "SELL" "BUY" buys); [|discriminate|exact Sb].
    cbn [length]. now rewrite (classify_length _ _ _ Hs), length_combine_min.
  - rewrite (Permutation_map price P), map_app.
    rewrite (classify_prices _ _ _ Hb), (classify_prices _ _ _ Hs).
    now rewrite !map_snd_combine.
Qed.

(** X2: the table shows the placeholder row exactly when it has no trade,
    that is when [zip] pairs nothing on either side (each side has an empty
    list of timestamps or of prices); then it returns without asking the
    calendar.  Otherwise its rows are the rows of its trades, in their
    order, one per line. *)
Theorem placeholder_iff_no_pairs buy_x buy_y sell_x sell_y :
  (Nat.min (length buy_x) (length buy_y) = 0%nat ->
   Nat.min (length sell_x) (length sell_y) = 0%nat ->
   _build_trades_table buy_x buy_y sell_x sell_y = Some (no_trades_html, [])) /\
  (forall html trades,
     _build_trades_table buy_x buy_y sell_x sell_y = Some (html, trades) ->
     (trades = [] <->
      (Nat.min (length buy_x) (length buy_y)
       + Nat.min (length sell_x) (length sell_y) = 0)%nat) /\
     html = match trades with
            | [] => no_trades_html
            | _ => join nl (map row_html trades)
            end).
Proof.
  split.
  - intros Hb Hs. unfold _build_trades_table.
    assert (Eb : combine buy_x buy_y = []).
    { apply length_zero_iff_nil. now rewrite length_combine_min. }
    assert (Es : combine sell_x sell_y = []).
    { apply length_zero_iff_nil. now rewrite length_combine_min. }
    now rewrite Eb, Es.
  - intros html trades H.
    assert (Hl : length trades
                 = (Nat.min (length buy_x) (length buy_y)
                    + Nat.min (length sell_x) (length sell_y))%nat).
    { destruct (build_trades_table_inv _ _ _ _ _ _ H) as (buys & sells & Hb & Hs & ->).
      rewrite sort_length, length_app.
      rewrite (classify_length _ _ _ Hb), (classify_length _ _ _ Hs).
      now rewrite !length_combine_min. }
    split.
    + rewrite <- Hl. split; [now intros ->|apply length_zero_iff_nil].
    + unfold _build_trades_table in H.
      destruct (classify "BUY" (combine buy_x buy_y)) as [buys|]; [|discriminate].
      destruct (classify "SELL" (combine sell_x sell_y)) as [sells|]; [|discriminate].
      injection H as <- <-.
      now destruct (sort time_utc (buys ++ sells)).
Qed.

End TradeTableMore.

Lemma table_keeps_sides_and_prices_witness :
  length (filter (visualize_lean_charts.has_side "BUY") Samples.new_year_trades) = 1%nat.
Proof.
  refine (proj1 (proj2 (table_keeps_sides_and_prices (rt := Exact.runtime)
            [Samples.new_year_2020; 0%Z] [100] [Samples.new_year_2020] [101]
            _ Samples.new_year_trades _))).
  reflexivity.
Defined.

(** ** The command line, further *)

Section CommandLineMore.

Import visualize_lean_charts.

Context {rt : PyRuntime}.

Lemma lookup_in_keys (items : list (string * json)) key v :
  lookup items key = Some v -> In key (map fst items).
Proof.
  induction items as [|[k w] rest IH]; cbn [lookup map fst]; [discriminate|].
  destruct (String.eqb k key) eqn:E.
  - intros _. left. now apply String.eqb_eq.
  - intros H. right. now apply IH.
Qed.

Lemma main_null_chart args fs result c charts :
  exists_ fs (resolve fs (input args)) = true ->
  json_load fs (resolve fs (input args)) = Some result ->
  get result "charts" = Some c ->
  py_or c (JDict []) = JDict charts ->
  lookup charts (chart args) = Some JNull ->
  main args fs
  = SystemExit ("Chart '" ++ chart args ++ "' not found. Available: "
                ++ join ", " (sort (fun k => k) (map fst charts))).
Proof.
  intros He Hl Hg Hc Hk. unfold main. cbv zeta.
  rewrite He. cbn [negb]. rewrite Hl. cbn [or_raise]. rewrite Hg. cbn [or_raise].
  rewrite Hc. cbn [get]. rewrite Hk. reflexivity.
Qed.

(** X19: a chart that is in the file with the value null is reported as
    not found, by the message that lists it among the available charts. *)
Theorem null_chart_is_reported_missing args fs result c charts :
  exists_ fs (resolve fs (input args)) = true ->
  json_load fs (resolve fs (input args)) = Some result ->
  get result "charts" = Some c ->
  py_or c (JDict []) = JDict charts ->
  lookup charts (chart args) = Some JNull ->
  main args fs
  = SystemExit ("Chart '" ++ chart args ++ "' not found. Available: "
                ++ join ", " (sort (fun k => k) (map fst charts))) /\
  In (chart args) (sort (fun k => k) (map fst charts)).
Proof.
  intros He Hl Hg Hc Hk. split; [now apply (main_null_chart args fs result c)|].
  eapply Permutation_in; [symmetry; apply sort_perm|].
  now apply (lookup_in_keys charts (chart args) JNull).
Qed.

(** X20: [main] writes no message of its own, and ends on an uncaught
    exception, when the file exists and cannot be read as JSON, when its
    top level is no object, when the value of "charts" is truthy and no
    object, and when the chart is neither an object nor null. *)
Theorem malformed_file_ends_uncaught args fs :
  exists_ fs (resolve fs (input args)) = true ->
  json_load fs (resolve fs (input args)) = None \/
  (exists result,
     json_load fs (resolve fs (input args)) = Some result /\
     (is_dict result = false \/
      exists c,
        get result "charts" = Some c /\
        (is_dict (py_or c (JDict [])) = false \/
         exists chart_,
           get (py_or c (JDict [])) (chart args) = Some chart_ /\
           chart_ <> JNull /\ is_dict chart_ = false))) ->
  main args fs = Raised /\ exit_status (main args fs) = 1%Z.
Proof.
  intros He H.
  assert (E : main args fs = Raised); [|now rewrite E].
  unfold main. cbv zeta. rewrite He. cbn [negb].
  destruct H as [->|(result & -> & H)]; [reflexivity|]. cbn [or_raise].
  destruct H as [H|(c & -> & H)].
  { destruct result; try reflexivity. discriminate. }
  cbn [or_raise]. destruct H as [H|(chart_ & -> & Hn & H)].
  { destruct (py_or c (JDict [])); try reflexivity. discriminate. }
  cbn [or_raise]. destruct chart_; try reflexivity; [contradiction|discriminate].
Qed.

Lemma extract_named_missing (items : list (string * json)) name :
  match lookup items name with
  | None => True
  | Some v => truthy v = false
  end ->
  extract_named (JDict items) name = Some ([], []).
Proof.
  unfold extract_named, get, py_or.
  destruct (lookup items name) as [v|]; [intros ->|intros _]; reflexivity.
Qed.

(** X21: a chart that is an object with no series (no key "series", or a
    falsy value) is no error: [main] writes a page with five empty series
    and the placeholder row, prints the path of the page and nothing else,
    and returns 0. *)
Theorem chart_without_series_gives_an_empty_page args fs result c charts kvs :
  exists_ fs (resolve fs (input args)) = true ->
  json_load fs (resolve fs (input args)) = Some result ->
  get result "charts" = Some c ->
  py_or c (JDict []) = JDict charts ->
  lookup charts (chart args) = Some (JDict kvs) ->
  match lookup kvs "series" with
  | None => True
  | Some s => truthy s = false
  end ->
  writable fs (chosen_output_path args fs) = true ->
  main args fs
  = Returned 0 (chosen_output_path args fs)
      (empty_page ("LEAN Backtest: " ++ chart args ++ " (Price + Trades + SMA)"))
      [chosen_output_path args fs].
Proof.
  intros He Hl Hg Hc Hk Hs Hw. unfold main. cbv zeta.
  rewrite He. cbn [negb]. rewrite Hl. cbn [or_raise]. rewrite Hg. cbn [or_raise].
  rewrite Hc. cbn [get]. rewrite Hk. cbn [or_raise get].
  assert (E : py_or (match lookup kvs "series" with Some v => v | None => JNull end)
                (JDict []) = JDict []).
  { unfold py_or. destruct (lookup kvs "series") as [s|]; [now rewrite Hs|reflexivity]. }
  rewrite E.
  rewrite !(extract_named_missing [] _ I). cbn [or_raise fst snd].
  change (_build_trades_table [] [] [] []) with (Some (no_trades_html, @nil Trade)).
  cbn [or_raise fst snd].
  fold (chosen_output_path args fs). rewrite Hw. reflexivity.
Qed.

(** X22: whenever [main] returns, it returns 0; it has written to the path
    given by a non-empty [--output] and else to the [-viz.html] path beside
    the input; the title of the page names the chart; the rows of the page
    are the table of the page's own buy and sell markers; and it has
    printed the header and one line per trade when there is a trade, then
    the path, which is the last line. *)
Theorem main_returns_after_writing args fs code out page lines :
  main args fs = Returned code out page lines ->
  code = 0%Z /\
  exists_ fs (resolve fs (input args)) = true /\
  out = chosen_output_path args fs /\
  writable fs out = true /\
  title page = ("LEAN Backtest: " ++ chart args ++ " (Price + Trades + SMA)")%string /\
  (exists trades,
     _build_trades_table (buy_x page) (buy_y page) (sell_x page) (sell_y page)
     = Some (trades_rows_html page, trades) /\
     lines = printed trades out) /\
  last lines "" = out.
Proof.
  unfold main. cbv zeta. fold (chosen_output_path args fs).
  destruct (exists_ fs (resolve fs (input args))); cbn [negb]; [|discriminate].
  destruct (json_load fs (resolve fs (input args))) as [result|];
    cbn [or_raise]; [|discriminate].
  destruct (get result "charts") as [c|]; cbn [or_raise]; [|discriminate].
  destruct (get (py_or c (JDict [])) (chart args)) as [chart_|];
    cbn [or_raise]; [|discriminate].
  destruct chart_ as [| | | | | |kvs]; cbn [get or_raise]; try discriminate.
  destruct (extract_named _ "Price") as [price_|]; cbn [or_raise]; [|discriminate].
  destruct (extract_named _ "FastSMA") as [fast|]; cbn [or_raise]; [|discriminate].
  destruct (extract_named _ "SlowSMA") as [slow|]; cbn [or_raise]; [|discriminate].
  destruct (extract_named _ "Buy") as [buy|]; cbn [or_raise]; [|discriminate].
  destruct (extract_named _ "Sell") as [sell|]; cbn [or_raise]; [|discriminate].
  destruct (_build_trades_table (fst buy) (snd buy) (fst sell) (snd sell))
    as [[html trades]|] eqn:Ht; cbn [or_raise fst snd]; [|discriminate].
  destruct (writable fs (chosen_output_path args fs)) eqn:Hw; cbn [negb]; [|discriminate].
  intros [= <- <- <- <-]. cbn [title buy_x buy_y sell_x sell_y trades_rows_html].
  repeat split; trivial.
  - exists trades. split; [exact Ht|reflexivity].
  - apply last_last.
Qed.

(** X23: [main] has two messages of its own and no other: the one of the
    missing input, written only when the resolved path does not exist, and
    the one of the missing chart, written only when the file loads as an
    object whose charts have no such key or have it with the value null. *)
Theorem main_has_two_messages args fs msg :
  main args fs = SystemExit msg ->
  (exists_ fs (resolve fs (input args)) = false /\
   msg = ("Input json not found: " ++ resolve fs (input args))%string) \/
  (exists_ fs (resolve fs (input args)) = true /\
   exists result c charts,
     json_load fs (resolve fs (input args)) = Some result /\
     get result "charts" = Some c /\
     py_or c (JDict []) = JDict charts /\
     (lookup charts (chart args) = None \/ lookup charts (chart args) = Some JNull) /\
     msg = ("Chart '" ++ chart args ++ "' not found. Available: "
            ++ join ", " (sort (fun k => k) (map fst charts)))%string).
Proof.
  unfold main. cbv zeta.
  destruct (exists_ fs (resolve fs (input args))); cbn [negb];
    [|intros [= <-]; now left].
  destruct (json_load fs (resolve fs (input args))) as [result|] eqn:Hl;
    cbn [or_raise]; [|discriminate].
  destruct (get result "charts") as [c|] eqn:Hg; cbn [or_raise]; [|discriminate].
  destruct (py_or c (JDict [])) as [| | | | | |charts] eqn:Hc;
    cbn [get or_raise]; try discriminate.
  intros H. right. split; [reflexivity|]. exists result, c, charts.
  split; [reflexivity|]. split; [exact Hg|]. split; [exact Hc|].
  destruct (lookup charts (chart args)) as [chart_|] eqn:Hk.
  - destruct chart_ as [| | | | | |kvs]; cbn [get or_raise] in H; try discriminate.
    + injection H as <-. split; [now right|reflexivity].
    + exfalso. revert H.
      destruct (extract_named _ "Price"); cbn [or_raise]; [|discriminate].
      destruct (extract_named _ "FastSMA"); cbn [or_raise]; [|discriminate].
      destruct (extract_named _ "SlowSMA"); cbn [or_raise]; [|discriminate].
      destruct (extract_named _ "Buy"); cbn [or_raise]; [|discriminate].
      destruct (extract_named _ "Sell"); cbn [or_raise]; [|discriminate].
      destruct (_build_trades_table _ _ _ _); cbn [or_raise]; [|discriminate].
      destruct (negb _); discriminate.
  - injection H as <-. split; [now left|reflexivity].
Qed.

End CommandLineMore.

Lemma null_chart_is_reported_missing_witness :
  visualize_lean_charts.main Samples.spy_args
    (Exact.one_file "backtest.json" Samples.null_chart)
  = visualize_lean_charts.SystemExit "Chart 'SPY' not found. Available: QQQ, SPY".
Proof.
  refine (proj1 (null_chart_is_reported_missing (rt := Exact.runtime)
            Samples.spy_args (Exact.one_file "backtest.json" Samples.null_chart)
            Samples.null_chart _ _ eq_refl eq_refl eq_refl eq_refl eq_refl)).
Defined.

Lemma malformed_file_ends_uncaught_witness :
  visualize_lean_charts.main Samples.spy_args
    (Exact.one_file "backtest.json" Samples.list_chart)
  = visualize_lean_charts.Raised.
Proof.
  apply (malformed_file_ends_uncaught (rt := Exact.runtime)
           Samples.spy_args (Exact.one_file "backtest.json" Samples.list_chart) eq_refl).
  right. exists Samples.list_chart. split; [reflexivity|]. right.
  eexists. split; [reflexivity|]. right.
  eexists. split; [reflexivity|]. split; [discriminate|reflexivity].
Defined.

Lemma chart_without_series_gives_an_empty_page_witness :
  visualize_lean_charts.main Samples.spy_args
    (Exact.one_file "backtest.json" Samples.bare_chart)
  = visualize_lean_charts.Returned 0 "backtest.json-viz.html"
      (visualize_lean_charts.empty_page "LEAN Backtest: SPY (Price + Trades + SMA)")
      ["backtest.json-viz.html"].
Proof.
  exact (chart_without_series_gives_an_empty_page (rt := Exact.runtime)
           Samples.spy_args (Exact.one_file "backtest.json" Samples.bare_chart)
           Samples.bare_chart _ _ [] eq_refl eq_refl eq_refl eq_refl eq_refl I eq_refl).
Defined.

Lemma main_returns_after_writing_witness :
  exists out page lines,
    visualize_lean_charts.main Samples.spy_args
      (Exact.one_file "backtest.json" Samples.traded_chart)
    = visualize_lean_charts.Returned 0 out page lines
    /\ lines = [ "Trades (UTC):";
                 "- 2020-01-01 00:00:00 BUY @ 100.0000";
                 "- 2020-01-01 00:00:00 SELL @ 101.0000";
                 "backtest.json-viz.html" ]
    /\ last lines "" = out.
Proof.
  eexists _, _, _. split; [reflexivity|]. split; [reflexivity|].
  apply (main_returns_after_writing (rt := Exact.runtime) Samples.spy_args
           (Exact.one_file "backtest.json" Samples.traded_chart) 0 _ _ _ eq_refl).
Defined.

Lemma main_has_two_messages_witness :
  (visualize_lean_charts.exists_ (Exact.one_file "other.json" Samples.two_charts)
     "backtest.json" = false
   /\ "Input json not found: backtest.json" = "Input json not found: backtest.json").
Proof.
  destruct (main_has_two_messages (rt := Exact.runtime) Samples.spy_args
              (Exact.one_file "other.json" Samples.two_charts)
              "Input json not found: backtest.json" eq_refl)
    as [H|[H _]]; [exact H|discriminate H].
Defined.

(** ** Repeating a call *)

Section Repeat.

Import SimpleSmaCrossDemoAlgorithm.

Lemma reaches_after_on_data self data :
  reaches_comparison (fst (on_data self data)) data = reaches_comparison self data.
Proof.
  destruct (reaches_comparison self data) eqn:Hr.
  - destruct (on_data_compared self data Hr) as (bar & _ & ->). exact Hr.
  - now rewrite (on_data_skipped self data Hr).
Qed.

(** X24: calling [on_data] again on the object it returned, with the same
    slice, places no order and returns that object unchanged: an order is
    placed once per crossing, however often the bar is delivered. *)
Theorem on_data_again_places_no_order self data :
  fst (on_data (fst (on_data self data)) data) = fst (on_data self data) /\
  filter is_order (snd (on_data (fst (on_data self data)) data)) = [] /\
  signal_of (snd (on_data (fst (on_data self data)) data)) = NoSignal.
Proof.
  destruct (reaches_comparison self data) eqn:Hr.
  - assert (Hr2 := reaches_after_on_data self data). rewrite Hr in Hr2.
    destruct (on_data_compared self data Hr) as (bar & _ & E).
    destruct (on_data_compared (fst (on_data self data)) data Hr2) as (bar2 & _ & E2).
    rewrite E2. rewrite E. cbn [fst snd _was_fast_above set_was_fast_above].
    assert (Ha : is_fast_above_of (set_was_fast_above self (Some (is_fast_above_of self)))
                 = is_fast_above_of self) by reflexivity.
    rewrite Ha. split; [reflexivity|].
    rewrite signal_of_plots, filter_orders_of.
    now destruct (is_fast_above_of self).
  - rewrite (on_data_skipped self data Hr). cbn [fst].
    rewrite (on_data_skipped self data Hr). now repeat split.
Qed.

End Repeat.
